(** * Country_mmdb.py: extraction of a per-country MMDB file

    A shallow embedding of [scripts/Country_mmdb.py].  The script reads a
    MaxMind-format database through [maxminddb], keeps the networks whose
    record carries one of the requested country codes, and feeds them to
    [mmdb_writer.MMDBWriter].

    The three packages the script imports ([maxminddb], [mmdb_writer],
    [netaddr]), [urllib] and the file system are collaborators of the
    script: their behaviour is an input of the model (the record [world]),
    and every call the script makes to them is logged as an [event].
    Python values are an inductive type, Python exceptions a result type,
    and the script's statements are written in a state-and-exception monad
    over the file system and the event log. *)

From Stdlib Require Import Ascii.
From stdpp Require Import base gmap strings list sorting pretty.

Local Open Scope string_scope.
Local Open Scope Z_scope.
Local Open Scope list_scope.

(** ** Python values *)

(** The values a [maxminddb] reader hands back for a record: the MMDB
    data types as their Python counterparts.  A [dict] keeps its items in
    insertion order; a double is carried as its 64 IEEE-754 bits. *)
#[local] Unset Elimination Schemes.
Inductive pyval : Type :=
| PNone
| PBool (b : bool)
| PInt (z : Z)
| PFloat (bits : Z)
| PStr (s : string)
| PBytes (bs : list Byte.byte)
| PList (l : list pyval)
| PDict (d : list (string * pyval)).
#[local] Set Elimination Schemes.

(** Exceptions the script can meet.  [KeyboardInterrupt] and [SystemExit]
    derive from [BaseException] only; [ModuleNotFoundError] derives from
    [ImportError]. *)
Inductive exn : Type :=
| ImportError
| ModuleNotFoundError
| TypeError
| AttributeError
| KeyError
| ValueError
| OSError
| InvalidDatabaseError
| AddrFormatError
| URLError
| KeyboardInterrupt
| SystemExit (code : Z).

Definition isinstance_Exception (e : exn) : bool :=
  match e with
  | KeyboardInterrupt | SystemExit _ => false
  | _ => true
  end.

Definition isinstance_ImportError (e : exn) : bool :=
  match e with
  | ImportError | ModuleNotFoundError => true
  | _ => false
  end.

Inductive result (A : Type) : Type :=
| Ok (a : A)
| Raise (e : exn).
Arguments Ok {A} a.
Arguments Raise {A} e.

#[global] Instance exn_eq_dec : EqDecision exn.
Proof. solve_decision. Defined.

(** *** The operators the filter uses *)

(** [bool(v)], as used by [not data]. *)
Definition truthy (v : pyval) : bool :=
  match v with
  | PNone => false
  | PBool b => b
  | PInt z => negb (z =? 0)
  | PFloat bits => negb (bits `mod` 2 ^ 63 =? 0)
  | PStr s => negb (bool_decide (s = ""))
  | PBytes bs => negb (bool_decide (bs = []))
  | PList l => negb (bool_decide (length l = 0%nat))
  | PDict d => negb (bool_decide (length d = 0%nat))
  end.

(** Lookup of a key in a dict. *)
Fixpoint dict_lookup (k : string) (d : list (string * pyval)) : option pyval :=
  match d with
  | [] => None
  | (k', v) :: d' => if bool_decide (k' = k) then Some v else dict_lookup k d'
  end.

(** [v == k] for a string literal [k]: only a [str] equals a [str]. *)
Definition eq_str (k : string) (v : pyval) : bool :=
  match v with
  | PStr s => bool_decide (s = k)
  | _ => false
  end.

(** [k in s] for two strings: substring search. *)
Fixpoint is_prefix (k s : string) : bool :=
  match k, s with
  | EmptyString, _ => true
  | String a k', String b s' => bool_decide (a = b) && is_prefix k' s'
  | String _ _, EmptyString => false
  end.

Fixpoint is_substring (k s : string) : bool :=
  is_prefix k s ||
  match s with
  | EmptyString => false
  | String _ s' => is_substring k s'
  end.

(** [k in v] for a string literal [k]. *)
Definition contains (k : string) (v : pyval) : result bool :=
  match v with
  | PDict d => Ok (bool_decide (is_Some (dict_lookup k d)))
  | PList l => Ok (existsb (eq_str k) l)
  | PStr s => Ok (is_substring k s)
  | PNone | PBool _ | PInt _ | PFloat _ | PBytes _ => Raise TypeError
  end.

(** [v[k]] for a string literal [k]. *)
Definition subscript (v : pyval) (k : string) : result pyval :=
  match v with
  | PDict d =>
      match dict_lookup k d with
      | Some x => Ok x
      | None => Raise KeyError
      end
  | _ => Raise TypeError
  end.

(** [v.get(k, default)]: only a dict has the method. *)
Definition get (v : pyval) (k : string) (dflt : pyval) : result pyval :=
  match v with
  | PDict d => Ok (default dflt (dict_lookup k d))
  | _ => Raise AttributeError
  end.

(** [v in s] for a set of strings [s]: the value is hashed first, so a
    list or a dict raises; any other value that is not a [str] equals no
    member. *)
Definition in_set (v : pyval) (s : gset string) : result bool :=
  match v with
  | PStr c => Ok (bool_decide (c ∈ s))
  | PList _ | PDict _ => Raise TypeError
  | PNone | PBool _ | PInt _ | PFloat _ | PBytes _ => Ok false
  end.

(** [stats[k] += 1] on a dict with string keys. *)
Definition incr (stats : gmap string Z) (k : pyval) : result (gmap string Z) :=
  match k with
  | PStr c =>
      match stats !! c with
      | Some n => Ok (<[c := n + 1]> stats)
      | None => Raise KeyError
      end
  | PList _ | PDict _ => Raise TypeError
  | PNone | PBool _ | PInt _ | PFloat _ | PBytes _ => Raise KeyError
  end.

(** [sorted(s)] for a set of strings: code point order, which on the
    UTF-8 bytes of a [string] is the lexicographic byte order. *)
Definition sorted (s : gset string) : list string :=
  merge_sort String.le (elements s).

(** ** Networks *)

(** An [ipaddress] / [netaddr] network: IP version, base address and
    prefix length.  [str(network)] and [IPNetwork(network_str)] convert to
    and from the textual form, which is not modelled: a network stands for
    its own text. *)
Record network : Type := Network {
  version : Z;
  value : Z;
  prefixlen : Z
}.

#[global] Instance network_eq_dec : EqDecision network.
Proof. solve_decision. Defined.

Definition str (n : network) : network := n.
Definition IPNetwork (network_str : network) : network := network_str.

(** [IPSet([n])]: the set built from one network holds that one CIDR. *)
Definition IPSet1 (n : network) : list network := [n].

(** ** Collaborators *)

Definition bytes : Type := list Byte.byte.

(** What the reader yields when iterated: the records in trie order, and
    the exception that ends the iteration early, if any. *)
Definition reader : Type := list (network * pyval) * option exn.

(** One call of [writer.insert_network] (with the [IPSet] construction in
    front of it), and the exception it raised, if any.  The writer is
    known to the script only through the calls made on it, so its state is
    the list of these calls, oldest first. *)
Record insert_call : Type := InsertCall {
  ic_set : list network;
  ic_data : pyval;
  ic_raised : option exn
}.

Definition writer : Type := list insert_call.

(** Outcome of writing a file: the bytes written, or an exception together
    with what the failed attempt left at the path ([None]: nothing was
    created or changed). *)
Inductive write_result : Type :=
| Written (b : bytes)
| WriteFailed (e : exn) (remains : option bytes).

(** The behaviour of everything the script calls but does not define. *)
Record world : Type := World {
  (** the [import] block of [generate_mmdb]: the exception it raises *)
  import_packages : option exn;
  (** [maxminddb.open_database(path)] on the current file system *)
  open_database : gmap string bytes → string → result reader;
  (** the body of the [try] around [insert_network] *)
  insert_network : writer → list network → pyval → option exn;
  (** [writer.to_db_file(path)] *)
  to_db_file : writer → string → write_result;
  (** [urllib.request.urlretrieve(url, dest)] *)
  urlretrieve : string → string → write_result;
  (** [tempfile.gettempdir()] *)
  gettempdir : string
}.

(** Console output: one constructor per [print] statement of the script,
    carrying the values its format string interpolates. *)
Inductive message : Type :=
| MsgDownloading (url : string)
| MsgDownloaded (size : Z)
| MsgDownloadFailed (e : exn)
| MsgMissingDependency (e : exn)
| MsgInstallHint
| MsgTargetCountries (cs : list string)
| MsgReadingSource (path : string)
| MsgProgress (total : Z)
| MsgTotals (total kept : Z)
| MsgCreating
| MsgOutputFile (path : string) (size : Z)
| MsgStatsHeader
| MsgStat (c : string) (n : Z)
| MsgDone.

(** The calls the script makes to the outside, in program order. *)
Inductive event : Type :=
| Print (m : message)
| Urlretrieve (url dest : string)
| OpenDatabase (path : string)
| ReaderClose
| NewWriter (ip_version : Z) (ipv4_compatible : bool) (database_type : string)
| InsertNetwork (ip_set : list network) (data : pyval)
| ToDbFile (path : string).

(** ** The monad of the script: file system, event log, exceptions *)

Record state : Type := State {
  fs : gmap string bytes;
  log : list event
}.

Definition M (A : Type) : Type := state → state * result A.

#[global] Instance M_ret : MRet M := λ A a st, (st, Ok a).

#[global] Instance M_bind : MBind M := λ A B f m st,
  match m st with
  | (st', Ok a) => f a st'
  | (st', Raise e) => (st', Raise e)
  end.

Definition raise {A} (e : exn) : M A := λ st, (st, Raise e).

Definition lift {A} (r : result A) : M A := λ st, (st, r).

Definition emit (ev : event) : M unit :=
  λ st, (State (fs st) (log st ++ [ev]), Ok tt).

Definition print (m : message) : M unit := emit (Print m).

(** [try: body except Exception as e: handler(e)] *)
Definition try_except {A} (body : M A) (handler : exn → M A) : M A := λ st,
  match body st with
  | (st', Ok a) => (st', Ok a)
  | (st', Raise e) =>
      if isinstance_Exception e then handler e st' else (st', Raise e)
  end.

(** Effect of a file-writing call on the file system. *)
Definition write_file (path : string) (r : write_result) : M unit := λ st,
  match r with
  | Written b => (State (<[path := b]> (fs st)) (log st), Ok tt)
  | WriteFailed e None => (st, Raise e)
  | WriteFailed e (Some b) => (State (<[path := b]> (fs st)) (log st), Raise e)
  end.

(** [os.path.exists(path)] and [os.path.getsize(path)] *)
Definition exists_ (path : string) : M bool :=
  λ st, (st, Ok (bool_decide (is_Some (fs st !! path)))).

Definition getsize (path : string) : M Z := λ st,
  match fs st !! path with
  | Some b => (st, Ok (Z.of_nat (length b)))
  | None => (st, Raise OSError)
  end.

(** [os.path.join(a, b)] of [posixpath]. *)
Definition join (a b : string) : string :=
  if is_prefix "/" b then b
  else if bool_decide (a = "") || is_prefix "/" (String.rev a) then a +:+ b
  else a +:+ "/" +:+ b.

(** ** The script *)

Definition DEFAULT_COUNTRIES : list string := ["CN"; "HK"; "US"; "JP"; "SG"].

Definition MMDB_SOURCE_URL : string :=
  "https://github.com/xream/geoip/releases/latest/download/ipinfo.country.mmdb".

(** [download_mmdb(url, dest)] *)
Definition download_mmdb (w : world) (url dest : string) : M bool :=
  print (MsgDownloading url);;
  try_except
    (emit (Urlretrieve url dest);;
     write_file dest (urlretrieve w url dest);;
     size ← getsize dest;
     print (MsgDownloaded size);;
     mret true)
    (λ e, print (MsgDownloadFailed e);; mret false).

(** Lines 58-62 of [generate_mmdb]: the decision taken on one record.
    [Ok None] is the [continue] of line 59 or a false test on line 62;
    [Ok (Some country_code)] is a true test on line 62. *)
Definition select (data : pyval) (countries_set : gset string)
  : result (option pyval) :=
  if negb (truthy data) then Ok None else
  match contains "country" data with
  | Raise e => Raise e
  | Ok false => Ok None
  | Ok true =>
      match subscript data "country" with
      | Raise e => Raise e
      | Ok country =>
          match get country "iso_code" (PStr "") with
          | Raise e => Raise e
          | Ok country_code =>
              match in_set country_code countries_set with
              | Raise e => Raise e
              | Ok true => Ok (Some country_code)
              | Ok false => Ok None
              end
          end
      end
  end.

(** The variables the reading loop updates. *)
Record scan : Type := Scan {
  total : Z;
  networks_to_write : list (network * pyval);
  stats : gmap string Z
}.

(** One turn of the loop of lines 53-64. *)
Definition scan_step (countries_set : gset string) (s : scan)
    (item : network * pyval) : M scan :=
  let '(network, data) := item in
  let total := total s + 1 in
  (if total `mod` 500000 =? 0 then print (MsgProgress total) else mret tt);;
  sel ← lift (select data countries_set);
  match sel with
  | None => mret (Scan total (networks_to_write s) (stats s))
  | Some country_code =>
      let networks_to_write :=
        networks_to_write s ++ [(str network, data)] in
      stats ← lift (incr (stats s) country_code);
      mret (Scan total networks_to_write stats)
  end.

Fixpoint scan_loop (countries_set : gset string) (s : scan)
    (items : list (network * pyval)) : M scan :=
  match items with
  | [] => mret s
  | item :: items' =>
      s' ← scan_step countries_set s item;
      scan_loop countries_set s' items'
  end.

(** The loop of lines 77-82: every exception of class [Exception] raised
    in the body is dropped by [except Exception: pass]. *)
Fixpoint insert_loop (w : world) (wr : writer)
    (networks_to_write : list (network * pyval)) : M writer :=
  match networks_to_write with
  | [] => mret wr
  | (network_str, data) :: rest =>
      let ip_set := IPSet1 (IPNetwork network_str) in
      emit (InsertNetwork ip_set data);;
      let raised := insert_network w wr ip_set data in
      let wr' := wr ++ [InsertCall ip_set data raised] in
      match raised with
      | None => insert_loop w wr' rest
      | Some e =>
          if isinstance_Exception e then insert_loop w wr' rest else raise e
      end
  end.

(** The loop of lines 90-91. *)
Fixpoint print_stats (stats : gmap string Z) (keys : list string) : M unit :=
  match keys with
  | [] => mret tt
  | c :: keys' =>
      match stats !! c with
      | Some n => print (MsgStat c n);; print_stats stats keys'
      | None => raise KeyError
      end
  end.

(** [generate_mmdb(source_path, output_path, countries)] *)
Definition generate_mmdb (w : world) (source_path output_path : string)
    (countries : list string) : M bool :=
  match import_packages w with
  | Some e =>
      if isinstance_ImportError e then
        print (MsgMissingDependency e);;
        print MsgInstallHint;;
        mret false
      else raise e
  | None =>
      let countries_set : gset string := list_to_set countries in
      print (MsgTargetCountries (sorted countries_set));;
      print (MsgReadingSource source_path);;
      emit (OpenDatabase source_path);;
      rd ← (λ st, lift (open_database w (fs st) source_path) st);
      s ← scan_loop countries_set
             (Scan 0 [] (gset_to_gmap 0 countries_set)) rd.1;
      match rd.2 with Some e => raise e | None => mret tt end;;
      emit ReaderClose;;
      print (MsgTotals (total s) (Z.of_nat (length (networks_to_write s))));;
      print MsgCreating;;
      emit (NewWriter 6 true "ipinfo.lite");;
      wr ← insert_loop w [] (networks_to_write s);
      emit (ToDbFile output_path);;
      write_file output_path (to_db_file w wr output_path);;
      output_size ← getsize output_path;
      print (MsgOutputFile output_path output_size);;
      print MsgStatsHeader;;
      print_stats (stats s) (sorted (dom (stats s)));;
      mret true
  end.

(** The parsed command line: [--source] (absent: [None]), [--output] and
    [--countries] with their defaults filled in by the parser. *)
Record args : Type := Args {
  source : option string;
  output : string;
  countries : list string
}.

Definition default_args : args := Args None "ipinfo.lite.mmdb" DEFAULT_COUNTRIES.

(** [sys.exit(1)] *)
Definition sys_exit {A} (code : Z) : M A := raise (SystemExit code).

(** [main()], after [parse_args]. *)
Definition main (w : world) (a : args) : M unit :=
  use_source ←
    match source a with
    | Some p => if bool_decide (p = "") then mret false else exists_ p
    | None => mret false
    end;
  source_path ←
    (if use_source : bool then mret (default "" (source a))
     else
       let temp_dir := gettempdir w in
       let source_path := join temp_dir "ipinfo.country.mmdb" in
       ok ← download_mmdb w MMDB_SOURCE_URL source_path;
       if negb ok then sys_exit 1 else mret source_path);
  ok ← generate_mmdb w source_path (output a) (countries a);
  (if negb ok then sys_exit 1 else mret tt);;
  print MsgDone.

(** ** Vocabulary of the statements *)

(** The country code under which a record is retained, if it is. *)
Definition code (countries_set : gset string) (data : pyval) : option string :=
  match select data countries_set with
  | Ok (Some (PStr c)) => Some c
  | _ => None
  end.

(** What the script requires of a record to retain it under code [c]: a
    dict whose ["country"] item is a dict, with [c] the ["iso_code"] item
    of the latter, or the empty string when it has none. *)
Definition country_is (data : pyval) (c : string) : Prop :=
  ∃ d country,
    data = PDict d ∧
    dict_lookup "country" d = Some (PDict country) ∧
    default (PStr "") (dict_lookup "iso_code" country) = PStr c.

(** The records the loop retains, in the order of the source. *)
Definition retained (countries_set : gset string)
    (items : list (network * pyval)) : list (network * pyval) :=
  filter (λ item, is_Some (code countries_set item.2)) items.

(** The number of records the loop retains under code [c]. *)
Definition count (countries_set : gset string) (c : string)
    (items : list (network * pyval)) : Z :=
  Z.of_nat (length (filter (λ item, code countries_set item.2 = Some c) items)).

(** The progress line of lines 55-56, printed every 500000 records. *)
Definition progress (total : Z) : list event :=
  if total `mod` 500000 =? 0 then [Print (MsgProgress total)] else [].

Definition is_progress (ev : event) : Prop := ∃ t, ev = Print (MsgProgress t).

(** The call of lines 79-80 for one entry of [networks_to_write]. *)
Definition insert_event (item : network * pyval) : event :=
  InsertNetwork [item.1] item.2.

(** The arguments of a recorded call. *)
Definition call_args (c : insert_call) : list network * pyval :=
  (ic_set c, ic_data c).

(** The filter raises nothing on the record of [item]. *)
Definition select_ok (countries_set : gset string)
    (item : network * pyval) : Prop :=
  ∃ o, select item.2 countries_set = Ok o.

(** A recorded call raised nothing, or an exception that
    [except Exception: pass] drops. *)
Definition dropped (c : insert_call) : Prop :=
  ∀ e, ic_raised c = Some e → isinstance_Exception e = true.

(** The writer after the loop of lines 77-82. *)
Definition final_writer (w : world)
    (networks_to_write : list (network * pyval)) : result writer :=
  (insert_loop w [] networks_to_write (State ∅ [])).2.

(** The events of lines 43-47, of lines 66-75 and of lines 85-91. *)
Definition prologue (countries_set : gset string) (src : string) : list event :=
  [Print (MsgTargetCountries (sorted countries_set));
   Print (MsgReadingSource src);
   OpenDatabase src].

Definition setup (countries_set : gset string)
    (items : list (network * pyval)) : list event :=
  [ReaderClose;
   Print (MsgTotals (Z.of_nat (length items))
            (Z.of_nat (length (retained countries_set items))));
   Print MsgCreating;
   NewWriter 6 true "ipinfo.lite"].

Definition report (countries_set : gset string) (out : string) (size : Z)
    (items : list (network * pyval)) : list event :=
  [Print (MsgOutputFile out size); Print MsgStatsHeader] ++
  map (λ c, Print (MsgStat c (count countries_set c items)))
      (sorted countries_set).

Arguments prologue : simpl never.
Arguments setup : simpl never.
Arguments report : simpl never.

(** Every way a run of [generate_mmdb] can end, with the final file
    system, the events added to the log and the value returned or the
    exception raised. *)
Inductive outcome (w : world) (src out : string) (cset : gset string)
    (st : state) : state → result bool → Prop :=
| import_reported e :
    import_packages w = Some e →
    isinstance_ImportError e = true →
    outcome w src out cset st
      (State (fs st)
         (log st ++ [Print (MsgMissingDependency e); Print MsgInstallHint]))
      (Ok false)
| import_raised e :
    import_packages w = Some e →
    isinstance_ImportError e = false →
    outcome w src out cset st st (Raise e)
| open_raised e :
    import_packages w = None →
    open_database w (fs st) src = Raise e →
    outcome w src out cset st
      (State (fs st) (log st ++ prologue cset src)) (Raise e)
| read_raised items oe prog e :
    import_packages w = None →
    open_database w (fs st) src = Ok (items, oe) →
    Forall is_progress prog →
    (∃ item, item ∈ items ∧ select item.2 cset = Raise e) ∨
      (Forall (select_ok cset) items ∧ oe = Some e) →
    outcome w src out cset st
      (State (fs st) (log st ++ prologue cset src ++ prog)) (Raise e)
| insert_raised items prog k e :
    import_packages w = None →
    open_database w (fs st) src = Ok (items, None) →
    Forall is_progress prog →
    Forall (select_ok cset) items →
    (∃ wr ip_set data, insert_network w wr ip_set data = Some e) →
    isinstance_Exception e = false →
    outcome w src out cset st
      (State (fs st)
         (log st ++ prologue cset src ++ prog ++ setup cset items ++
          map insert_event (take k (retained cset items))))
      (Raise e)
| write_raised items prog wr e remains :
    import_packages w = None →
    open_database w (fs st) src = Ok (items, None) →
    Forall is_progress prog →
    Forall (select_ok cset) items →
    final_writer w (retained cset items) = Ok wr →
    map call_args wr = map (λ item, ([item.1], item.2)) (retained cset items) →
    Forall dropped wr →
    to_db_file w wr out = WriteFailed e remains →
    outcome w src out cset st
      (State (from_option (λ b, <[out := b]> (fs st)) (fs st) remains)
         (log st ++ prologue cset src ++ prog ++ setup cset items ++
          map insert_event (retained cset items) ++ [ToDbFile out]))
      (Raise e)
| written items prog wr b :
    import_packages w = None →
    open_database w (fs st) src = Ok (items, None) →
    Forall is_progress prog →
    Forall (select_ok cset) items →
    final_writer w (retained cset items) = Ok wr →
    map call_args wr = map (λ item, ([item.1], item.2)) (retained cset items) →
    Forall dropped wr →
    to_db_file w wr out = Written b →
    outcome w src out cset st
      (State (<[out := b]> (fs st))
         (log st ++ prologue cset src ++ prog ++ setup cset items ++
          map insert_event (retained cset items) ++ [ToDbFile out] ++
          report cset out (Z.of_nat (length b)) items))
      (Ok true).

(** What an event says about the writer, the statistics and the files. *)
Definition insertion (ev : event) : option (list network * pyval) :=
  match ev with InsertNetwork ip_set data => Some (ip_set, data) | _ => None end.

Definition stat_line (ev : event) : option (string * Z) :=
  match ev with Print (MsgStat c n) => Some (c, n) | _ => None end.

Definition written_path (ev : event) : option string :=
  match ev with ToDbFile path => Some path | _ => None end.

Definition opened_path (ev : event) : option string :=
  match ev with OpenDatabase path => Some path | _ => None end.

(** The [insert_network] calls, the statistics lines, the files written
    and the databases opened, in the order of the log. *)
Definition insertions (evs : list event) : list (list network * pyval) :=
  omap insertion evs.
Definition stat_lines (evs : list event) : list (string * Z) :=
  omap stat_line evs.
Definition written_paths (evs : list event) : list string :=
  omap written_path evs.
Definition opened_paths (evs : list event) : list string :=
  omap opened_path evs.

(** ** Example data *)

Module Examples.

(** A record of the source database with the given country code. *)
Definition record (iso_code : string) : pyval :=
  PDict [("country", PDict [("iso_code", PStr iso_code)]);
         ("country_name", PStr "")].

(** A record whose country map has no ["iso_code"]. *)
Definition no_iso_code : pyval := PDict [("country", PDict [("name", PStr "?")])].

(** 203.0.113.0/25, 203.0.113.128/25 and their parent 203.0.113.0/24 *)
Definition net_low : network := Network 4 3405803776 25.
Definition net_high : network := Network 4 3405803904 25.
Definition net_parent : network := Network 4 3405803776 24.

(** The low byte of an integer. *)
Definition byte_of (z : Z) : Byte.byte :=
  default Byte.x00 (Byte.of_N (Z.to_N (z `mod` 256))).

(** A writer that lays the inserted networks out in insertion order, one
    byte for each. *)
Definition layout (wr : writer) : bytes :=
  wr ≫= λ c, map (λ n, byte_of (value n)) (ic_set c).

(** A world in which the packages are installed, the database at
    ["a.mmdb"] holds [items_a] and the one at ["b.mmdb"] holds [items_b],
    [insert_network] raises what [raises] says and [to_db_file] ends as
    [write] says. *)
Definition world_of (items_a items_b : list (network * pyval))
    (raises : option exn) (write : writer → write_result) : world :=
  World None
    (λ _ path,
       if bool_decide (path = "a.mmdb") then Ok (items_a, None)
       else if bool_decide (path = "b.mmdb") then Ok (items_b, None)
       else Raise OSError)
    (λ _ _ _, raises)
    (λ wr _, write wr)
    (λ _ _, Written [])
    "/tmp".

(** The same world without the packages. *)
Definition uninstalled : world :=
  World (Some ModuleNotFoundError) (λ _ _, Raise OSError) (λ _ _ _, None)
    (λ _ _, Written []) (λ _ _, Written []) "/tmp".

(** A world in which nothing fails, with [items] at ["a.mmdb"]. *)
Definition plain (items : list (network * pyval)) : world :=
  world_of items [] None (λ wr, Written (layout wr)).

(** An empty file system and an empty log. *)
Definition start : state := State ∅ [].

End Examples.

(** The reading of C1 in the words of the specification: the record has a
    country attribute whose iso_code is a member of the target set. *)
Definition spec_keep (data : pyval) (target_set : gset string) : Prop :=
  ∃ d country c,
    data = PDict d ∧
    dict_lookup "country" d = Some (PDict country) ∧
    dict_lookup "iso_code" country = Some (PStr c) ∧
    c ∈ target_set.

(** [main] when [--source] is not used. *)
Definition main_download (w : world) (a : args) : M unit :=
  let source_path := join (gettempdir w) "ipinfo.country.mmdb" in
  ok ← download_mmdb w MMDB_SOURCE_URL source_path;
  (if negb ok then sys_exit 1 else mret tt);;
  ok ← generate_mmdb w source_path (output a) (countries a);
  (if negb ok then sys_exit 1 else mret tt);;
  print MsgDone.

(** The progress lines printed while the records numbered [t + 1] to
    [t + n] are read. *)
Fixpoint progress_from (t : Z) (n : nat) : list event :=
  match n with
  | O => []
  | S n' => progress (t + 1) ++ progress_from (t + 1) n'
  end.

(** The downloads an event list holds, as (url, destination). *)
Definition download (ev : event) : option (string * string) :=
  match ev with Urlretrieve url dest => Some (url, dest) | _ => None end.

Definition downloads (evs : list event) : list (string * string) :=
  omap download evs.

(** The events [generate_mmdb source_path output_path] can add to the
    log: nothing of [download_mmdb] or of the end of [main], no database
    opened but the source, no file written but the output. *)
Definition generate_event (src out : string) (ev : event) : Prop :=
  match ev with
  | Print (MsgDownloading _) | Print (MsgDownloaded _)
  | Print (MsgDownloadFailed _) | Print MsgDone | Urlretrieve _ _ => False
  | OpenDatabase path => path = src
  | ToDbFile path => path = out
  | _ => True
  end.

(** The sum of the counts of a list of statistics lines. *)
Definition sum_counts (lines : list (string * Z)) : Z :=
  foldr (λ line acc, line.2 + acc) 0 lines.

(** The end of [main], lines 114-118, once the source path is known. *)
Definition main_generate (w : world) (source_path : string) (a : args) : M unit :=
  ok ← generate_mmdb w source_path (output a) (countries a);
  (if negb ok then sys_exit 1 else mret tt);;
  print MsgDone.

(** Where [main] downloads the source to. *)
Definition download_path (w : world) : string :=
  join (gettempdir w) "ipinfo.country.mmdb".

(** The test of line 105 fails: no [--source], an empty one, or one that
    names no existing file. *)
Definition source_unusable (a : args) (st : state) : Prop :=
  source a = None ∨ source a = Some "" ∨
  ∃ p, source a = Some p ∧ fs st !! p = None.

(** The record numbers announced by the progress lines of a log. *)
Definition progress_line (ev : event) : option Z :=
  match ev with Print (MsgProgress t) => Some t | _ => None end.

Definition progress_lines (evs : list event) : list Z :=
  omap progress_line evs.

(** * ASN_generator.py: per-country ASN lists

    A shallow embedding of [scripts/ASN_generator.py], in the same style:
    the web page (fetched with [requests] and searched with [lxml]), the
    clock and [open] are collaborators whose behaviour is an input of the
    model; [str.upper] and [str.strip], which follow the Unicode tables of
    the Python runtime, are taken from the world as well.  Files are text,
    kept as strings. *)

Module ASN_generator.

(** The exceptions of this script: [requests.RequestException] (with its
    subclasses), [ValueError], [OSError], and any other one; [str(exc)] is
    the message carried. *)
Inductive exn : Type :=
| RequestException (msg : string)
| ValueError (msg : string)
| OSError (msg : string)
| OtherError (msg : string).

Definition isinstance_RequestException (e : exn) : bool :=
  match e with RequestException _ => true | _ => false end.

Definition str_exn (e : exn) : string :=
  match e with
  | RequestException msg | ValueError msg | OSError msg | OtherError msg => msg
  end.

Inductive result (A : Type) : Type :=
| Ok (a : A)
| Raise (e : exn).
Arguments Ok {A} a.
Arguments Raise {A} e.

(** A table row of the page, as the two [xpath] queries of lines 43-44
    see it: the nodes found, each given by its [.text] ([None] when the
    node has no text). *)
Record row : Type := Row {
  number_nodes : list (option string);
  name_nodes : list (option string)
}.

(** The calls made to the outside, in program order: [print], the HTTP
    request with its User-Agent header, and [open] with its mode. *)
Inductive event : Type :=
| Print (line : string)
| Get (url user_agent : string)
| Open (path mode : string).

Record world : Type := World {
  (** [s.upper()] and [s.strip()] *)
  upper : string → string;
  strip : string → string;
  (** [time.strftime("%Y-%m-%d %H:%M:%S", time.localtime())], after the
      events so far *)
  strftime : list event → string;
  (** lines 37-40: the request, [raise_for_status], the parse and the
      [xpath] query for the rows, after the events so far *)
  fetch_rows : list event → string → result (list row);
  (** the exception [open(path, mode)] raises, if any *)
  open_error : string → option exn
}.

Record state : Type := State {
  fs : gmap string string;
  log : list event
}.

Definition M (A : Type) : Type := state → state * result A.

#[global] Instance M_ret : MRet M := λ A a st, (st, Ok a).

#[global] Instance M_bind : MBind M := λ A B f m st,
  match m st with
  | (st', Ok a) => f a st'
  | (st', Raise e) => (st', Raise e)
  end.

Definition raise {A} (e : exn) : M A := λ st, (st, Raise e).

Definition emit (ev : event) : M unit :=
  λ st, (State (fs st) (log st ++ [ev]), Ok tt).

Definition print (line : string) : M unit := emit (Print line).

(** A question put to the world at the current state. *)
Definition ask {A} (f : state → result A) : M A := λ st, (st, f st).

(** [open(path, mode)] for the modes ["w"] and ["a"]: the first empties
    the file, both create it when it does not exist. *)
Definition fopen (w : world) (path mode : string) : M unit := λ st,
  let st1 := State (fs st) (log st ++ [Open path mode]) in
  match open_error w path with
  | Some e => (st1, Raise e)
  | None =>
      let old := if bool_decide (mode = "w") then ""
                 else default "" (fs st !! path) in
      (State (<[path := old]> (fs st)) (log st1), Ok tt)
  end.

(** [file.write(text)] on the file opened at [path] *)
Definition fwrite (path text : string) : M unit := λ st,
  (State (<[path := default "" (fs st !! path) +:+ text]> (fs st)) (log st),
   Ok tt).

(** The newline character. *)
Definition nl : string := String (Ascii.ascii_of_nat 10) "".

(** [a or b] on strings that may be [None] *)
Definition or_else (a b : option string) : option string :=
  match a with
  | Some s => if bool_decide (s = "") then b else a
  | None => b
  end.

(** [s.replace("AS", "")] *)
Fixpoint replace_AS (s : string) : string :=
  match s with
  | String "A"%char (String "S"%char s') => replace_AS s'
  | String a s' => String a (replace_AS s')
  | EmptyString => EmptyString
  end.

Definition USER_AGENT : string :=
  "Mozilla/5.0 (Macintosh; Intel Mac OS X 10_15_7) " +:+
  "AppleWebKit/537.36 (KHTML, like Gecko) Chrome/107.0.0.0 Safari/537.36".

Record metadata : Type := Metadata {
  display : string;
  file : string
}.

Definition COUNTRY_METADATA : gmap string metadata :=
  list_to_map
    [("CN", Metadata "China" "ASN.China.list");
     ("US", Metadata "US" "ASN.US.list");
     ("JP", Metadata "Japan" "ASN.Japan.list");
     ("HK", Metadata "Hong Kong" "ASN.HongKong.list");
     ("SG", Metadata "Singapore" "ASN.Singapore.list")].

Definition DEFAULT_COUNTRY_ORDER : list string := ["CN"; "US"; "JP"; "HK"; "SG"].

(** [init_file(display_name, output_path)] *)
Definition init_file (w : world) (display_name output_path : string) : M unit :=
  local_time ← ask (λ st, Ok (strftime w (log st)));
  fopen w output_path "w";;
  fwrite output_path
    ("// ASN Information in " +:+ display_name +:+
     ". (https://github.com/missuo/ASN-China) " +:+ nl);;
  fwrite output_path ("// Last Updated: UTC " +:+ local_time +:+ nl);;
  fwrite output_path ("// Made by Vincent, All rights reserved. " +:+ nl +:+ nl).

(** The loop of lines 42-51. *)
Fixpoint rows_loop (w : world) (rows : list row)
    (results : list (string * string)) : list (string * string) :=
  match rows with
  | [] => results
  | r :: rows' =>
      match number_nodes r, name_nodes r with
      | number :: _, name :: _ =>
          let asn_number := strip w (replace_AS (default "" number)) in
          let asn_name := strip w (default "" name) in
          if bool_decide (asn_number = "") || bool_decide (asn_name = "")
          then rows_loop w rows' results
          else rows_loop w rows' (results ++ [(asn_number, asn_name)])
      | _, _ => rows_loop w rows' results
      end
  end.

(** [fetch_country_asns(country_code)] *)
Definition fetch_country_asns (w : world) (country_code : string)
  : M (list (string * string)) :=
  let url := "https://bgp.he.net/country/" +:+ country_code in
  emit (Get url USER_AGENT);;
  rows ← ask (λ st, fetch_rows w (log st) url);
  mret (rows_loop w rows []).

(** The loop of lines 58-60. *)
Fixpoint write_loop (output_path : string) (entries : list (string * string))
    (count : nat) : M nat :=
  match entries with
  | [] => mret count
  | (number, name) :: entries' =>
      fwrite output_path ("IP-ASN," +:+ number +:+ " // " +:+ name +:+ nl);;
      write_loop output_path entries' (count + 1)
  end.

(** [write_asn_entries(output_path, entries)] *)
Definition write_asn_entries (w : world) (output_path : string)
    (entries : list (string * string)) : M nat :=
  fopen w output_path "a";;
  write_loop output_path entries 0.

(** [generate_country_asn(country_code, output_path, display_name)] *)
Definition generate_country_asn (w : world) (country_code : string)
    (output_path display_name : option string) : M nat :=
  let code := upper w country_code in
  let metadata := COUNTRY_METADATA !! code in
  let file_path := or_else output_path (file <$> metadata) in
  let display :=
    default "" (or_else display_name
                  (Some (default code (display <$> metadata)))) in
  match or_else file_path None with
  | None =>
      raise (ValueError ("No output file configured for country code '" +:+
                         code +:+ "'."))
  | Some file_path =>
      asn_entries ← fetch_country_asns w code;
      match asn_entries with
      | [] =>
          print ("[WARN] No ASN entries found for " +:+ code +:+ ".");;
          init_file w display file_path;;
          mret 0%nat
      | _ :: _ =>
          init_file w display file_path;;
          count ← write_asn_entries w file_path asn_entries;
          print ("[INFO] " +:+ code +:+ ": wrote " +:+ pretty count +:+
                 " entries to " +:+ file_path);;
          mret count
      end
  end.

(** The body of the loop of [generate_multiple], lines 90-96. *)
Definition generate_one (w : world) (code : string) : M unit :=
  if bool_decide (is_Some (COUNTRY_METADATA !! upper w code)) then
    λ st,
      match generate_country_asn w (upper w code) None None st with
      | (st', Ok _) => (st', Ok tt)
      | (st', Raise exc) =>
          if isinstance_RequestException exc then
            print ("[ERROR] Failed to fetch ASN data for " +:+ upper w code +:+
                   ": " +:+ str_exn exc) st'
          else (st', Raise exc)
      end
  else
    print ("[WARN] Country code '" +:+ code +:+ "' not configured, skipping.").

Fixpoint codes_loop (w : world) (codes : list string) : M unit :=
  match codes with
  | [] => mret tt
  | code :: codes' => generate_one w code;; codes_loop w codes'
  end.

(** [generate_multiple(country_codes)] *)
Definition generate_multiple (w : world)
    (country_codes : option (list string)) : M unit :=
  let codes :=
    match country_codes with
    | Some (c :: l) => c :: l
    | _ => DEFAULT_COUNTRY_ORDER
    end in
  codes_loop w codes.

(** [main()], with [args.countries] as parsed: [None] without
    [--countries]. *)
Definition main (w : world) (countries : option (list string)) : M unit :=
  let countries :=
    match countries with
    | Some (c :: l) => map (upper w) (c :: l)
    | _ => DEFAULT_COUNTRY_ORDER
    end in
  generate_multiple w (Some countries).

(** *** Vocabulary of the statements *)

(** The header [init_file] writes and the line [write_asn_entries] writes
    for one entry. *)
Definition header (display_name local_time : string) : string :=
  "// ASN Information in " +:+ display_name +:+
  ". (https://github.com/missuo/ASN-China) " +:+ nl +:+
  ("// Last Updated: UTC " +:+ local_time +:+ nl) +:+
  ("// Made by Vincent, All rights reserved. " +:+ nl +:+ nl).

Definition entry_line (entry : string * string) : string :=
  "IP-ASN," +:+ entry.1 +:+ " // " +:+ entry.2 +:+ nl.

Definition entry_lines (entries : list (string * string)) : string :=
  foldr (λ entry text, entry_line entry +:+ text) "" entries.

(** The file [generate_country_asn] writes to ([None]: it raises
    [ValueError]), the title it puts in the header and the page it asks
    for. *)
Definition file_for (w : world) (country_code : string)
    (output_path : option string) : option string :=
  or_else (or_else output_path (file <$> COUNTRY_METADATA !! upper w country_code))
    None.

Definition display_for (w : world) (country_code : string)
    (display_name : option string) : string :=
  default ""
    (or_else display_name
       (Some (default (upper w country_code)
                (display <$> COUNTRY_METADATA !! upper w country_code)))).

Definition page_url (code : string) : string :=
  "https://bgp.he.net/country/" +:+ code.

(** The entry the loop of lines 42-51 makes of a row with both nodes. *)
Definition entry_of (w : world) (number name : option string)
  : string * string :=
  (strip w (replace_AS (default "" number)), strip w (default "" name)).

(** What the loop of lines 42-51 guarantees of an entry it appends: both
    fields are non-empty and it is made of the first nodes of a row. *)
Definition from_rows (w : world) (rows : list row)
    (entry : string * string) : Prop :=
  entry.1 ≠ "" ∧ entry.2 ≠ "" ∧
  ∃ r number name numbers names,
    r ∈ rows ∧
    number_nodes r = number :: numbers ∧
    name_nodes r = name :: names ∧
    entry = entry_of w number name.

(** The URLs requested and the files opened, in the order of the log. *)
Definition requested (evs : list event) : list string :=
  omap (λ ev, match ev with Get url _ => Some url | _ => None end) evs.

Definition opened (evs : list event) : list string :=
  omap (λ ev, match ev with Open path _ => Some path | _ => None end) evs.

(** The files of [COUNTRY_METADATA]. *)
Definition configured_files : list string :=
  file <$> (map_to_list COUNTRY_METADATA).*2.

(** A world for the examples: ASCII [upper], a [strip] that removes
    spaces at both ends, a fixed clock, and a page with [rows] for China
    and a connection error for every other country. *)
Fixpoint upper_ascii (s : string) : string :=
  match s with
  | EmptyString => EmptyString
  | String a s' =>
      let n := Ascii.nat_of_ascii a in
      String (if (97 <=? n)%nat && (n <=? 122)%nat
              then Ascii.ascii_of_nat (n - 32) else a)
        (upper_ascii s')
  end.

Fixpoint lstrip_spaces (s : string) : string :=
  match s with
  | String " "%char s' => lstrip_spaces s'
  | _ => s
  end.

Definition strip_spaces (s : string) : string :=
  String.rev (lstrip_spaces (String.rev (lstrip_spaces s))).

Definition example_world (rows : list row) : world :=
  World upper_ascii strip_spaces (λ _, "2024-01-01 00:00:00")
    (λ _ url,
       if bool_decide (url = "https://bgp.he.net/country/CN") then Ok rows
       else Raise (RequestException "connection refused"))
    (λ _, None).

Definition start : state := State ∅ [].

End ASN_generator.

(** * Properties *)

(** ** Reading the monad *)

Lemma bind_run {A B} (m : M A) (f : A → M B) (st : state) :
  (m ≫= f) st =
  match m st with
  | (st', Ok a) => f a st'
  | (st', Raise e) => (st', Raise e)
  end.
Proof. reflexivity. Qed.

Lemma emit_run (ev : event) (st : state) :
  emit ev st = (State (fs st) (log st ++ [ev]), Ok tt).
Proof. reflexivity. Qed.

Lemma state_eta (st : state) : State (fs st) (log st) = st.
Proof. by destruct st. Qed.

(** Unfolds one layer of binds and primitive actions in the goal. *)
Ltac run :=
  repeat (rewrite ?bind_run, ?emit_run; unfold print, lift, raise, mret, M_ret;
          cbn [fst snd fs log]).

(** ** The filter *)

Lemma dict_lookup_nonempty k d v :
  dict_lookup k d = Some v → bool_decide (length d = 0%nat) = false.
Proof. by destruct d. Qed.

Lemma select_Some data countries_set v :
  select data countries_set = Ok (Some v) ↔
  ∃ c, v = PStr c ∧ country_is data c ∧ c ∈ countries_set.
Proof.
  unfold select, country_is. split.
  - destruct (truthy data) eqn:Ht; simpl; [|done].
    destruct data as [| | | | s | | l | d]; simpl in *; try done.
    + by destruct (is_substring _ _).
    + by destruct (existsb _ _).
    + destruct (dict_lookup "country" d) as [country|] eqn:Hc; simpl;
        [|done].
      destruct country as [| | | | | | |cd]; simpl; try done.
      destruct (default (PStr "") (dict_lookup "iso_code" cd))
        as [| | | | c | | |] eqn:Hi; simpl; try done.
      destruct (bool_decide (c ∈ countries_set)) eqn:Hin; intros ?; simplify_eq.
      apply bool_decide_eq_true in Hin. eauto 10.
  - intros (c & -> & (d & country & -> & Hc & Hi) & Hin).
    simpl. rewrite (dict_lookup_nonempty _ _ _ Hc). simpl.
    rewrite Hc. rewrite bool_decide_eq_true_2 by eauto. simpl.
    rewrite Hi. simpl. by rewrite bool_decide_eq_true_2.
Qed.

Lemma code_Some countries_set data c :
  code countries_set data = Some c ↔ country_is data c ∧ c ∈ countries_set.
Proof.
  unfold code. split.
  - destruct (select data countries_set) as [[v|]|] eqn:Hs; try done.
    apply select_Some in Hs as (c' & -> & ? & ?). by intros [= <-].
  - intros [? ?].
    assert (select data countries_set = Ok (Some (PStr c))) as ->; [|done].
    apply select_Some. eauto.
Qed.

Lemma select_code data countries_set v :
  select data countries_set = Ok (Some v) →
  ∃ c, v = PStr c ∧ code countries_set data = Some c.
Proof.
  intros Hs. pose proof Hs as (c & -> & ? & ?)%select_Some.
  exists c. split; [done|]. by apply code_Some.
Qed.

Lemma select_None_code data countries_set :
  select data countries_set = Ok None → code countries_set data = None.
Proof. unfold code. by intros ->. Qed.

(** ** The reading loop *)

Lemma scan_step_run countries_set s n d st :
  scan_step countries_set s (n, d) st =
  (State (fs st) (log st ++ progress (total s + 1)),
   match select d countries_set with
   | Raise e => Raise e
   | Ok None => Ok (Scan (total s + 1) (networks_to_write s) (stats s))
   | Ok (Some country_code) =>
       match incr (stats s) country_code with
       | Raise e => Raise e
       | Ok m => Ok (Scan (total s + 1) (networks_to_write s ++ [(n, d)]) m)
       end
   end).
Proof.
  unfold scan_step, progress, str.
  destruct ((total s + 1) `mod` 500000 =? 0); run;
    rewrite ?app_nil_r, ?state_eta;
    destruct (select d countries_set) as [[country_code|]|]; try done;
    by destruct (incr (stats s) country_code).
Qed.

Lemma scan_loop_cons countries_set s item items :
  scan_loop countries_set s (item :: items) =
  scan_step countries_set s item ≫= λ s', scan_loop countries_set s' items.
Proof. reflexivity. Qed.

Lemma scan_loop_state countries_set items : ∀ s st st' r,
  scan_loop countries_set s items st = (st', r) →
  fs st' = fs st ∧ ∃ evs, log st' = log st ++ evs ∧ Forall is_progress evs.
Proof.
  induction items as [|[n d] items IH]; intros s st st' r.
  - intros [= <- <-]. split; [done|]. exists []. by rewrite app_nil_r.
  - rewrite scan_loop_cons, bind_run, scan_step_run.
    assert (Forall is_progress (progress (total s + 1))) as Hp.
    { unfold progress. destruct (_ =? _); repeat constructor. by eexists. }
    destruct (match select d countries_set with Ok _ => _ | Raise e => _ end)
      as [s1|e].
    + intros (Hfs & evs & Hlog & Hevs)%IH. simpl in *. split; [done|].
      exists (progress (total s + 1) ++ evs).
      rewrite Hlog, app_assoc. split; [done|]. by apply Forall_app.
    + intros [= <- <-]. simpl. eauto.
Qed.

Lemma incr_Ok m k m' :
  incr m k = Ok m' → ∃ c n, k = PStr c ∧ m !! c = Some n ∧ m' = <[c := n + 1]> m.
Proof.
  destruct k as [| | | | c | | |]; simpl; try done.
  destruct (m !! c) as [n|] eqn:Hn; [|done]. intros [= <-]. eauto.
Qed.

Lemma count_cons countries_set c item items :
  count countries_set c (item :: items) =
  (if bool_decide (code countries_set item.2 = Some c) then 1 else 0)
  + count countries_set c items.
Proof.
  unfold count. rewrite filter_cons.
  case_bool_decide; case_decide; try done; simpl length; lia.
Qed.

Lemma scan_loop_Ok countries_set items : ∀ s st st' s',
  scan_loop countries_set s items st = (st', Ok s') →
  total s' = total s + Z.of_nat (length items) ∧
  networks_to_write s' = networks_to_write s ++ retained countries_set items ∧
  ∀ c, stats s' !! c = (λ n, n + count countries_set c items) <$> stats s !! c.
Proof.
  induction items as [|[n d] items IH]; intros s st st' s'.
  - intros [= <- <-]. simpl. rewrite app_nil_r. split_and!; [lia|done|].
    intros c. unfold count. simpl. destruct (stats s !! c); simpl; [|done].
    f_equal. lia.
  - rewrite scan_loop_cons, bind_run, scan_step_run.
    unfold retained. rewrite filter_cons. simpl.
    destruct (select d countries_set) as [[country_code|]|] eqn:Hs; [| |done].
    + destruct (incr (stats s) country_code) as [m|] eqn:Hm; [|done].
      apply select_code in Hs as (c0 & -> & Hc).
      apply incr_Ok in Hm as (? & k & [= <-] & Hk & ->).
      intros (Ht & Hn & Hst)%IH. simpl in *.
      rewrite decide_True by (rewrite Hc; eauto).
      split_and!; [lia|by rewrite Hn, <-app_assoc|].
      intros c. rewrite Hst, count_cons. simpl. rewrite Hc.
      destruct (decide (c = c0)) as [->|Hne].
      * rewrite lookup_insert_eq, Hk, bool_decide_eq_true_2 by done. simpl.
        f_equal. lia.
      * rewrite lookup_insert_ne by done.
        rewrite bool_decide_eq_false_2 by congruence.
        destruct (stats s !! c); simpl; f_equal; lia.
    + apply select_None_code in Hs.
      intros (Ht & Hn & Hst)%IH. simpl in *.
      rewrite decide_False by (rewrite Hs; by intros [? ?]).
      split_and!; [lia|done|].
      intros c. rewrite Hst, count_cons. simpl. rewrite Hs.
      rewrite bool_decide_eq_false_2 by done.
      destruct (stats s !! c); simpl; f_equal; lia.
Qed.

(** ** The writing loop and the statistics *)

Lemma insert_loop_cons w wr n d rest :
  insert_loop w wr ((n, d) :: rest) =
  emit (InsertNetwork [n] d) ≫= λ _,
    let raised := insert_network w wr [n] d in
    let wr' := wr ++ [InsertCall [n] d raised] in
    match raised with
    | None => insert_loop w wr' rest
    | Some e =>
        if isinstance_Exception e then insert_loop w wr' rest else raise e
    end.
Proof. reflexivity. Qed.

Lemma insert_loop_Ok w ntw : ∀ wr st st' wr',
  insert_loop w wr ntw st = (st', Ok wr') →
  fs st' = fs st ∧
  log st' = log st ++ map insert_event ntw ∧
  map call_args wr' = map call_args wr ++ map (λ item, ([item.1], item.2)) ntw.
Proof.
  induction ntw as [|[n d] rest IH]; intros wr st st' wr'.
  - intros [= <- <-]. by rewrite !app_nil_r.
  - rewrite insert_loop_cons, bind_run, emit_run. cbn zeta.
    assert (∀ raised, insert_loop w (wr ++ [InsertCall [n] d raised]) rest
        (State (fs st) (log st ++ [InsertNetwork [n] d])) = (st', Ok wr') →
      fs st' = fs st ∧
      log st' = log st ++ map insert_event ((n, d) :: rest) ∧
      map call_args wr' =
        map call_args wr ++ map (λ item, ([item.1], item.2)) ((n, d) :: rest))
      as Hgo.
    { intros raised (Hfs & Hlog & Hwr)%IH. simpl in *.
      rewrite Hlog, Hwr, map_app, <-!app_assoc. done. }
    destruct (insert_network w wr [n] d) as [e|]; [|by apply Hgo].
    destruct (isinstance_Exception e); [by apply Hgo|done].
Qed.

Lemma insert_loop_Raise w ntw : ∀ wr st st' e,
  insert_loop w wr ntw st = (st', Raise e) →
  isinstance_Exception e = false ∧
  fs st' = fs st ∧
  ∃ k, log st' = log st ++ map insert_event (take k ntw).
Proof.
  induction ntw as [|[n d] rest IH]; intros wr st st' e; [done|].
  rewrite insert_loop_cons, bind_run, emit_run. cbn zeta.
  assert (∀ raised, insert_loop w (wr ++ [InsertCall [n] d raised]) rest
      (State (fs st) (log st ++ [InsertNetwork [n] d])) = (st', Raise e) →
    isinstance_Exception e = false ∧ fs st' = fs st ∧
    ∃ k, log st' = log st ++ map insert_event (take k ((n, d) :: rest)))
    as Hgo.
  { intros raised (He & Hfs & k & Hlog)%IH. simpl in *.
    split_and!; [done..|]. exists (S k). by rewrite Hlog, <-app_assoc. }
  destruct (insert_network w wr [n] d) as [e'|]; [|by apply Hgo].
  destruct (isinstance_Exception e') eqn:He'; [by apply Hgo|].
  intros [= <- <-]. split_and!; [done..|]. by exists 1%nat.
Qed.

Lemma print_stats_run (stats : gmap string Z) keys : ∀ st,
  (∀ c, c ∈ keys → is_Some (stats !! c)) →
  print_stats stats keys st =
  (State (fs st)
     (log st ++ map (λ c, Print (MsgStat c (default 0 (stats !! c)))) keys),
   Ok tt).
Proof.
  induction keys as [|c keys IH]; intros st Hkeys; simpl.
  - by rewrite app_nil_r, state_eta.
  - destruct (Hkeys c) as [n Hn]; [by left|]. rewrite Hn. run.
    rewrite IH by (intros; apply Hkeys; by right). simpl.
    by rewrite <-app_assoc.
Qed.

(** *** Where the exceptions of the two loops come from *)

Lemma scan_loop_select_ok countries_set items : ∀ s st st' s',
  scan_loop countries_set s items st = (st', Ok s') →
  Forall (select_ok countries_set) items.
Proof.
  induction items as [|[n d] items IH]; intros s st st' s'; [by constructor|].
  rewrite scan_loop_cons, bind_run, scan_step_run.
  destruct (select d countries_set) as [[country_code|]|] eqn:Hs; [| |done].
  - destruct (incr (stats s) country_code); [|done].
    intros ?%IH. constructor; [by eexists|done].
  - intros ?%IH. constructor; [by eexists|done].
Qed.

Lemma scan_loop_Raise countries_set items : ∀ s st st' e,
  (∀ c, c ∈ countries_set → is_Some (stats s !! c)) →
  scan_loop countries_set s items st = (st', Raise e) →
  ∃ item, item ∈ items ∧ select item.2 countries_set = Raise e.
Proof.
  induction items as [|[n d] items IH]; intros s st st' e Hdom; [done|].
  rewrite scan_loop_cons, bind_run, scan_step_run.
  destruct (select d countries_set) as [[country_code|]|e'] eqn:Hs.
  - pose proof Hs as (c & -> & _ & Hc)%select_Some.
    destruct (Hdom c Hc) as [k Hk]. simpl. rewrite Hk.
    intros (item & ? & ?)%IH; [exists item; split; [by right|done]|].
    simpl. intros c' Hc'. destruct (decide (c' = c)) as [->|].
    + rewrite lookup_insert_eq. eauto.
    + rewrite lookup_insert_ne by done. auto.
  - intros (item & ? & ?)%IH; [|done]. exists item. split; [by right|done].
  - intros [= <- <-]. exists (n, d). split; [by left|done].
Qed.

Lemma insert_loop_dropped w ntw : ∀ wr st st' wr',
  insert_loop w wr ntw st = (st', Ok wr') →
  Forall dropped wr → Forall dropped wr'.
Proof.
  induction ntw as [|[n d] rest IH]; intros wr st st' wr'.
  - by intros [= <- <-].
  - rewrite insert_loop_cons, bind_run, emit_run. cbn zeta.
    destruct (insert_network w wr [n] d) as [e|] eqn:Hi.
    + destruct (isinstance_Exception e) eqn:He; [|done].
      intros Hrun Hwr. eapply IH; [done|]. apply Forall_app. split; [done|].
      constructor; [|done]. by intros ? [= <-].
    + intros Hrun Hwr. eapply IH; [done|]. apply Forall_app. split; [done|].
      constructor; [|done]. by intros ?.
Qed.

Lemma insert_loop_Raise_origin w ntw : ∀ wr st st' e,
  insert_loop w wr ntw st = (st', Raise e) →
  ∃ wr0 ip_set data, insert_network w wr0 ip_set data = Some e.
Proof.
  induction ntw as [|[n d] rest IH]; intros wr st st' e; [done|].
  rewrite insert_loop_cons, bind_run, emit_run. cbn zeta.
  destruct (insert_network w wr [n] d) as [e'|] eqn:Hi; [|by apply IH].
  destruct (isinstance_Exception e'); [by apply IH|].
  intros [= <- <-]. eauto.
Qed.

(** The writer the loop ends with does not depend on the file system or
    on the log. *)
Lemma insert_loop_result w ntw : ∀ wr st st0,
  (insert_loop w wr ntw st).2 = (insert_loop w wr ntw st0).2.
Proof.
  induction ntw as [|[n d] rest IH]; intros wr st st0; [done|].
  rewrite insert_loop_cons, !bind_run, !emit_run. cbn zeta.
  destruct (insert_network w wr [n] d) as [e|]; [|by apply IH].
  destruct (isinstance_Exception e); [by apply IH|done].
Qed.

(** ** The outcomes of [generate_mmdb] *)

Lemma stats_init_lookup (cset : gset string) c :
  c ∈ cset → is_Some (gset_to_gmap 0 cset !! c).
Proof. intros. exists 0. by apply lookup_gset_to_gmap_Some. Qed.

Lemma elem_of_sorted (cset : gset string) c : c ∈ sorted cset ↔ c ∈ cset.
Proof. unfold sorted. by rewrite merge_sort_Permutation, elem_of_elements. Qed.

Lemma stats_final (cset : gset string) (m : gmap string Z) (f : string → Z) :
  (∀ c, m !! c = (λ n, n + f c) <$> gset_to_gmap 0 cset !! c) →
  dom m = cset ∧ ∀ c, c ∈ cset → m !! c = Some (f c).
Proof.
  intros Hm. split.
  - apply set_eq. intros c. rewrite elem_of_dom, Hm, fmap_is_Some.
    split; [by intros [? [? _]%lookup_gset_to_gmap_Some]|].
    apply stats_init_lookup.
  - intros c Hc. rewrite Hm.
    by rewrite (proj2 (lookup_gset_to_gmap_Some 0 cset c 0)).
Qed.

Lemma generate_mmdb_outcome w src out cs st st' r :
  generate_mmdb w src out cs st = (st', r) →
  outcome w src out (list_to_set cs) st st' r.
Proof.
  unfold generate_mmdb. set (cset := list_to_set cs).
  destruct (import_packages w) as [e|] eqn:Himp.
  { destruct (isinstance_ImportError e) eqn:He.
    - run. intros [= <- <-]. rewrite <-app_assoc. by apply import_reported.
    - intros [= <- <-]. by apply import_raised. }
  run. rewrite <-!app_assoc. simpl app.
  change (log st ++ _) with (log st ++ prologue cset src).
  destruct (open_database w (fs st) src) as [[items oe]|e] eqn:Hopen.
  2: { intros [= <- <-]. by apply open_raised. }
  simpl fst; simpl snd. rewrite bind_run.
  destruct (scan_loop cset _ items _) as [st1 [s|e]] eqn:Hscan.
  2: { intros [= <- <-].
       pose proof Hscan as (Hfs & prog & Hlog & Hprog)%scan_loop_state.
       apply scan_loop_Raise in Hscan as Hsel;
         [|by intros; apply stats_init_lookup].
       destruct st1 as [fs1 log1]. cbn [fs log] in *. subst fs1 log1.
       rewrite <-app_assoc. eapply read_raised; eauto. }
  pose proof Hscan as (Hfs & prog & Hlog & Hprog)%scan_loop_state.
  pose proof Hscan as Hsel%scan_loop_select_ok.
  apply scan_loop_Ok in Hscan as (Htot & Hntw & Hstats).
  destruct st1 as [fs1 log1]. cbn [fs log] in *. subst fs1 log1.
  rewrite <-app_assoc.
  destruct oe as [e|].
  { run. intros [= <- <-]. eapply read_raised; eauto. }
  run. rewrite Htot, Hntw, <-!app_assoc. simpl app.
  change (log st ++ _) with
    (log st ++ prologue cset src ++ prog ++ setup cset items).
  destruct (insert_loop w [] _ _) as [st2 [wr|e]] eqn:Hins.
  2: { intros [= <- <-].
       pose proof Hins as (He & Hfs & k & Hlog)%insert_loop_Raise.
       apply insert_loop_Raise_origin in Hins.
       destruct st2 as [fs2 log2]. cbn [fs log] in *. subst fs2 log2.
       rewrite <-!app_assoc. by eapply insert_raised. }
  pose proof Hins as Hdrop%insert_loop_dropped; [|by constructor].
  assert (final_writer w (retained cset items) = Ok wr) as Hfinal.
  { unfold final_writer. erewrite insert_loop_result. by rewrite Hins. }
  apply insert_loop_Ok in Hins as (Hfs & Hlog & Hwr).
  destruct st2 as [fs2 log2]. cbn [fs log] in *. subst fs2 log2.
  run. rewrite <-!app_assoc. unfold write_file, getsize.
  destruct (to_db_file w wr out) as [b|e remains] eqn:Hw.
  2: { simpl in Hwr. destruct remains as [b|]; intros [= <- <-].
       - by apply (write_raised w src out cset st items prog wr e (Some b)).
       - by apply (write_raised w src out cset st items prog wr e None). }
  run. rewrite lookup_insert_eq. run.
  apply stats_final in Hstats as [Hdom Hcount].
  rewrite print_stats_run
    by (intros c; rewrite elem_of_sorted; apply elem_of_dom).
  intros [= <- <-]. cbn [fs log]. rewrite Hdom.
  rewrite (map_ext_in _ (λ c, Print (MsgStat c (count cset c items)))).
  2: { intros c Hc%list_elem_of_In%elem_of_sorted. by rewrite Hcount. }
  simpl in Hwr.
  pose proof (written w src out cset st items prog wr b) as Hout.
  unfold report in Hout.
  repeat (progress (rewrite <-?app_assoc in Hout; simpl app in Hout)).
  repeat (progress (rewrite <-?app_assoc; simpl app)).
  by apply Hout.
Qed.

(** ** Observations on the log *)

Lemma omap_progress {A} (f : event → option A) prog :
  (∀ t, f (Print (MsgProgress t)) = None) →
  Forall is_progress prog → omap f prog = [].
Proof.
  intros Hf. induction 1 as [|ev prog [t ->] _ IH]; [done|].
  simpl. by rewrite Hf.
Qed.

Lemma omap_insert_event {A} (f : event → option A) l :
  omap f (map insert_event l) = omap (λ item, f (insert_event item)) l.
Proof.
  induction l as [|item l IH]; [done|]. simpl.
  destruct (f (insert_event item)); [f_equal|]; apply IH.
Qed.

Lemma omap_none {A B} (l : list A) : omap (λ _, @None B) l = [].
Proof. by induction l. Qed.

Lemma omap_some {A B} (g : A → B) (l : list A) :
  omap (λ x, Some (g x)) l = map g l.
Proof. induction l as [|x l IH]; [done|]. simpl. by f_equal. Qed.

Lemma omap_map_none {A B C} (f : B → option C) (g : A → B) (l : list A) :
  (∀ x, f (g x) = None) → omap f (map g l) = [].
Proof. intros Hf. induction l as [|x l IH]; [done|]. simpl. by rewrite Hf. Qed.

Section successful_log.
Context (cset : gset string) (src out : string) (size : Z).
Context (items : list (network * pyval)) (prog : list event).
Hypothesis Hprog : Forall is_progress prog.

Let evs : list event :=
  prologue cset src ++ prog ++ setup cset items ++
  map insert_event (retained cset items) ++ [ToDbFile out] ++
  report cset out size items.

Lemma insertions_success :
  insertions evs = map (λ item, ([item.1], item.2)) (retained cset items).
Proof.
  unfold evs, insertions, report. rewrite !omap_app, omap_insert_event.
  rewrite (omap_progress _ prog) by done. simpl.
  by rewrite omap_some, omap_map_none, app_nil_r.
Qed.

Lemma stat_lines_success :
  stat_lines evs = map (λ c, (c, count cset c items)) (sorted cset).
Proof.
  unfold evs, stat_lines, report. rewrite !omap_app, omap_insert_event.
  rewrite (omap_progress _ prog) by done. simpl.
  rewrite omap_none. simpl. generalize (sorted cset).
  intros l. induction l as [|c l IH]; [done|]. simpl. by f_equal.
Qed.

Lemma written_paths_success : written_paths evs = [out].
Proof.
  unfold evs, written_paths, report. rewrite !omap_app, omap_insert_event.
  rewrite (omap_progress _ prog) by done. simpl.
  by rewrite omap_none, omap_map_none.
Qed.
End successful_log.

(** A run that returns [True], read off [outcome]. *)
Lemma generate_mmdb_true w src out cs st st' :
  generate_mmdb w src out cs st = (st', Ok true) →
  ∃ items prog wr b,
    import_packages w = None ∧
    open_database w (fs st) src = Ok (items, None) ∧
    Forall is_progress prog ∧
    Forall (select_ok (list_to_set cs)) items ∧
    final_writer w (retained (list_to_set cs) items) = Ok wr ∧
    Forall dropped wr ∧
    to_db_file w wr out = Written b ∧
    fs st' = <[out := b]> (fs st) ∧
    log st' =
      log st ++ prologue (list_to_set cs) src ++ prog ++
      setup (list_to_set cs) items ++
      map insert_event (retained (list_to_set cs) items) ++ [ToDbFile out] ++
      report (list_to_set cs) out (Z.of_nat (length b)) items.
Proof.
  intros Hrun%generate_mmdb_outcome. inversion Hrun; subst.
  eexists _, _, _, _. split_and!; done.
Qed.

(** What a run that returns [True] on the records [items] leaves in the
    log. *)
Lemma run_observed w src out cs st st' items :
  open_database w (fs st) src = Ok (items, None) →
  generate_mmdb w src out cs st = (st', Ok true) →
  ∃ evs,
    log st' = log st ++ evs ∧
    insertions evs =
      map (λ item, ([item.1], item.2)) (retained (list_to_set cs) items) ∧
    stat_lines evs =
      map (λ c, (c, count (list_to_set cs) c items)) (sorted (list_to_set cs)) ∧
    written_paths evs = [out].
Proof.
  intros Hopen (items' & prog & wr & b & _ & Hopen' & Hprog & _ & _ & _ & _
                & _ & Hlog)%generate_mmdb_true.
  rewrite Hopen in Hopen'. injection Hopen' as <-.
  eexists. split; [exact Hlog|].
  split_and!; [by apply insertions_success|by apply stat_lines_success
              |by apply written_paths_success].
Qed.

Lemma elem_of_retained cset items n data :
  (n, data) ∈ retained cset items ↔
  (n, data) ∈ items ∧ ∃ c, country_is data c ∧ c ∈ cset.
Proof.
  unfold retained. rewrite list_elem_of_filter. simpl.
  split; intros [H1 H2]; (split; [|done]) || (split; [done|]).
  - destruct H1 as [c Hc]. exists c. by apply code_Some.
  - destruct H2 as (c & ? & ?). exists c. by apply code_Some.
Qed.

Lemma elem_of_singleton_calls (l : list (network * pyval)) n data :
  ([n], data) ∈ map (λ item, ([item.1], item.2)) l ↔ (n, data) ∈ l.
Proof.
  rewrite list_elem_of_In, in_map_iff. setoid_rewrite <-list_elem_of_In. split.
  - intros ([n' d'] & [= -> ->] & ?). done.
  - intros ?. by exists (n, data).
Qed.

(** * The claims *)

(** ** The filter (C1, C10) *)

(** C1, as stated, fails: with the empty string among the requested
    codes, a record whose country map has no iso_code is passed to the
    writer, although it has no iso_code that is a member of the set. *)
Lemma keep_without_iso_code :
  let data := Examples.no_iso_code in
  let run :=
    generate_mmdb (Examples.plain [(Examples.net_low, data)])
      "a.mmdb" "out.mmdb" [""] Examples.start in
  run.2 = Ok true ∧
  insertions (log run.1) = [([Examples.net_low], data)] ∧
  ¬ spec_keep data (list_to_set [""]).
Proof.
  split_and!; [by vm_compute..|].
  intros (d & country & c & [= <-] & [= <-] & Hc & _). done.
Qed.

(** C1 (amended): in a run that returns [True], a source entry is passed
    to the writer iff its record is a dict whose ["country"] item is a
    dict, and the ["iso_code"] item of the latter, taken to be the empty
    string when it is absent, is a member of the target set. *)
Theorem filter_correct w src out cs st st' items :
  open_database w (fs st) src = Ok (items, None) →
  generate_mmdb w src out cs st = (st', Ok true) →
  ∃ evs,
    log st' = log st ++ evs ∧
    ∀ n data,
      ([n], data) ∈ insertions evs ↔
      (n, data) ∈ items ∧ ∃ c, country_is data c ∧ c ∈ cs.
Proof.
  intros Hopen Hrun.
  destruct (run_observed _ _ _ _ _ _ _ Hopen Hrun) as (evs & Hlog & Hins & _).
  exists evs. split; [done|]. intros n data.
  rewrite Hins, elem_of_singleton_calls, elem_of_retained.
  by setoid_rewrite elem_of_list_to_set.
Qed.

Lemma filter_correct_witness :
  ∃ evs,
    log (generate_mmdb (Examples.plain [(Examples.net_low, Examples.record "JP")])
           "a.mmdb" "out.mmdb" ["JP"] Examples.start).1 = [] ++ evs ∧
    ∀ n data,
      ([n], data) ∈ insertions evs ↔
      (n, data) ∈ [(Examples.net_low, Examples.record "JP")] ∧
      ∃ c, country_is data c ∧ c ∈ ["JP"].
Proof.
  apply (filter_correct
           (Examples.plain [(Examples.net_low, Examples.record "JP")])
           "a.mmdb" "out.mmdb" ["JP"] Examples.start);
    by vm_compute.
Defined.

(** C10: for a record whose country map lacks the iso_code key, the code
    tested on line 62 is the empty string: the filter selects the record
    iff [""] is in the target set, and in a run that returns [True] the
    entry is passed to the writer under exactly that condition. *)
Theorem missing_iso_code_defaults_to_empty w src out cs st st' items d country :
  dict_lookup "country" d = Some (PDict country) →
  dict_lookup "iso_code" country = None →
  open_database w (fs st) src = Ok (items, None) →
  generate_mmdb w src out cs st = (st', Ok true) →
  select (PDict d) (list_to_set cs) =
    Ok (if bool_decide ("" ∈ cs) then Some (PStr "") else None) ∧
  ∃ evs,
    log st' = log st ++ evs ∧
    ∀ n, ([n], PDict d) ∈ insertions evs ↔ (n, PDict d) ∈ items ∧ "" ∈ cs.
Proof.
  intros Hc Hi Hopen Hrun.
  assert (∀ c, country_is (PDict d) c ↔ c = "") as His.
  { intros c. unfold country_is. split.
    - intros (d' & country' & [= <-] & Hc' & Hi').
      rewrite Hc in Hc'. injection Hc' as <-. rewrite Hi in Hi'.
      by injection Hi'.
    - intros ->. exists d, country. by rewrite Hi. }
  split.
  - case_bool_decide as Hin.
    + apply select_Some. exists "". rewrite His, elem_of_list_to_set. done.
    + destruct (select (PDict d) (list_to_set cs)) as [[v|]|e] eqn:Hs.
      * apply select_Some in Hs as (c & _ & ->%His & Hin').
        by apply elem_of_list_to_set in Hin'.
      * done.
      * unfold select in Hs. simpl in Hs.
        rewrite (dict_lookup_nonempty _ _ _ Hc), Hc in Hs. simpl in Hs.
        rewrite Hi in Hs. simpl in Hs. by case_bool_decide.
  - destruct (run_observed _ _ _ _ _ _ _ Hopen Hrun) as (evs & Hlog & Hins & _).
    exists evs. split; [done|]. intros n.
    rewrite Hins, elem_of_singleton_calls, elem_of_retained.
    setoid_rewrite His. setoid_rewrite elem_of_list_to_set.
    split; [intros [? (c & -> & ?)]|intros [? ?]]; eauto.
Qed.

Lemma missing_iso_code_witness :
  select Examples.no_iso_code (list_to_set [""; "CN"]) =
    Ok (if bool_decide ("" ∈ [""; "CN"]) then Some (PStr "") else None) ∧
  ∃ evs,
    log (generate_mmdb
           (Examples.plain [(Examples.net_low, Examples.no_iso_code)])
           "a.mmdb" "out.mmdb" [""; "CN"] Examples.start).1 = [] ++ evs ∧
    ∀ n, ([n], Examples.no_iso_code) ∈ insertions evs ↔
         (n, Examples.no_iso_code) ∈ [(Examples.net_low, Examples.no_iso_code)]
         ∧ "" ∈ [""; "CN"].
Proof.
  apply (missing_iso_code_defaults_to_empty
           (Examples.plain [(Examples.net_low, Examples.no_iso_code)])
           "a.mmdb" "out.mmdb" [""; "CN"] Examples.start _ _ _
           [("name", PStr "?")]);
    by vm_compute.
Defined.

(** ** Dependencies and the source file (C8, C9) *)

(** C8: when the import block raises [ImportError], [generate_mmdb] prints
    the two messages and returns [False]; this is all it does: no database
    is opened, no record is read, nothing is raised. *)
Theorem missing_dependency_returns_false w src out cs st e :
  import_packages w = Some e →
  isinstance_ImportError e = true →
  generate_mmdb w src out cs st =
  (State (fs st)
     (log st ++ [Print (MsgMissingDependency e); Print MsgInstallHint]),
   Ok false).
Proof.
  intros Himp He. unfold generate_mmdb. rewrite Himp, He. run.
  by rewrite <-app_assoc.
Qed.

Lemma missing_dependency_witness :
  generate_mmdb Examples.uninstalled "a.mmdb" "out.mmdb" ["CN"] Examples.start =
  (State ∅
     [Print (MsgMissingDependency ModuleNotFoundError); Print MsgInstallHint],
   Ok false).
Proof.
  apply (missing_dependency_returns_false Examples.uninstalled
           "a.mmdb" "out.mmdb" ["CN"] Examples.start ModuleNotFoundError);
    reflexivity.
Defined.

Lemma download_mmdb_log w url dest st :
  ∃ evs,
    log (download_mmdb w url dest st).1 =
    log st ++ Print (MsgDownloading url) :: Urlretrieve url dest :: evs.
Proof.
  unfold download_mmdb, try_except. run. unfold write_file, getsize.
  destruct (urlretrieve w url dest) as [b|e [b|]]; run.
  - rewrite lookup_insert_eq. run.
    exists [Print (MsgDownloaded (Z.of_nat (length b)))].
    by rewrite <-!app_assoc.
  - destruct (isinstance_Exception e); run.
    + exists [Print (MsgDownloadFailed e)]. by rewrite <-!app_assoc.
    + exists []. by rewrite <-!app_assoc.
  - destruct (isinstance_Exception e); run.
    + exists [Print (MsgDownloadFailed e)]. by rewrite <-!app_assoc.
    + exists []. by rewrite <-!app_assoc.
Qed.

Lemma generate_mmdb_log w src out cs st :
  ∃ evs, log (generate_mmdb w src out cs st).1 = log st ++ evs.
Proof.
  destruct (generate_mmdb w src out cs st) as [st' r] eqn:Hrun.
  apply generate_mmdb_outcome in Hrun.
  inversion Hrun; subst; simpl; try (eexists; reflexivity).
  exists []. by rewrite app_nil_r.
Qed.

Lemma main_download_log w a st :
  ∃ evs,
    log (main_download w a st).1 =
    log st ++ Print (MsgDownloading MMDB_SOURCE_URL)
      :: Urlretrieve MMDB_SOURCE_URL (join (gettempdir w) "ipinfo.country.mmdb")
      :: evs.
Proof.
  unfold main_download. cbn zeta. rewrite bind_run.
  destruct (download_mmdb_log w MMDB_SOURCE_URL
              (join (gettempdir w) "ipinfo.country.mmdb") st) as [evs Hevs].
  destruct (download_mmdb w _ _ st) as [st1 [[]|e]]; simpl in Hevs;
    unfold sys_exit; run; cbn [negb]; run; [|by eauto..].
  destruct (generate_mmdb_log w (join (gettempdir w) "ipinfo.country.mmdb")
              (output a) (countries a) st1) as [evs' Hevs'].
  destruct (generate_mmdb w _ _ _ st1) as [st2 [[]|e]]; simpl in Hevs';
    cbn [negb]; run; rewrite Hevs', Hevs, <-?app_assoc; simpl;
    eexists; reflexivity.
Qed.

Lemma main_without_source w a st :
  (source a = None ∨ source a = Some "" ∨
   ∃ p, source a = Some p ∧ fs st !! p = None) →
  main w a st = main_download w a st.
Proof.
  intros Hsrc. unfold main, main_download. rewrite bind_run.
  assert ((match source a with
           | Some p => if bool_decide (p = "") then mret false else exists_ p
           | None => mret false
           end) st = (st, Ok false)) as ->.
  { destruct Hsrc as [->|[->|(p & -> & Hp)]]; [done..|].
    case_bool_decide; [done|]. unfold exists_. rewrite Hp.
    by rewrite bool_decide_eq_false_2 by (by intros [? ?]). }
  cbn iota zeta. rewrite !bind_run.
  destruct (download_mmdb w _ _ st) as [st1 [[]|e]]; [|done..].
  unfold sys_exit. by run.
Qed.

(** C9: when [--source] names a path at which no file exists, [main] does
    exactly what it does without [--source]: it downloads
    [MMDB_SOURCE_URL] to [ipinfo.country.mmdb] in the temporary directory,
    and the path that was given appears nowhere in what follows. *)
Theorem absent_source_falls_back_to_download w a p st :
  source a = Some p →
  fs st !! p = None →
  main w a st = main w (Args None (output a) (countries a)) st ∧
  ∃ evs,
    log (main w a st).1 =
    log st ++ Print (MsgDownloading MMDB_SOURCE_URL)
      :: Urlretrieve MMDB_SOURCE_URL (join (gettempdir w) "ipinfo.country.mmdb")
      :: evs.
Proof.
  intros Hsrc Hp.
  rewrite (main_without_source w a) by eauto.
  rewrite (main_without_source w (Args None _ _)) by (by left).
  split; [done|]. apply main_download_log.
Qed.

Lemma absent_source_witness :
  let a := Args (Some "missing.mmdb") "out.mmdb" ["CN"] in
  let w := Examples.plain [] in
  main w a Examples.start = main w (Args None "out.mmdb" ["CN"]) Examples.start ∧
  ∃ evs,
    log (main w a Examples.start).1 =
    [] ++ Print (MsgDownloading MMDB_SOURCE_URL)
      :: Urlretrieve MMDB_SOURCE_URL (join "/tmp" "ipinfo.country.mmdb")
      :: evs.
Proof.
  apply (absent_source_falls_back_to_download (Examples.plain [])
           (Args (Some "missing.mmdb") "out.mmdb" ["CN"]) "missing.mmdb"
           Examples.start);
    reflexivity.
Defined.

(** ** The statistics (C7, C4) *)





Lemma count_zero cset c items :
  (∀ n data, (n, data) ∈ items → ¬ country_is data c) →
  count cset c items = 0.
Proof.
  intros Hnone. unfold count.
  induction items as [|[n d] items IH]; [done|].
  rewrite filter_cons. simpl. rewrite decide_False.
  - apply IH. intros n' d' ?. apply Hnone with n'. by right.
  - intros [? _]%code_Some. apply (Hnone n d); [by left|done].
Qed.





(** ** Errors (C5) *)

(** C5, as stated, fails: [insert_network] raises [ValueError] on the one
    retained entry, and the run returns [True] all the same; the log holds
    no trace of the exception. *)
Lemma insert_error_is_dropped :
  let items := [(Examples.net_low, Examples.record "JP")] in
  let w := Examples.world_of items [] (Some ValueError)
             (λ wr, Written (Examples.layout wr)) in
  let run := generate_mmdb w "a.mmdb" "out.mmdb" ["JP"] Examples.start in
  insert_network w [] [Examples.net_low] (Examples.record "JP") = Some ValueError ∧
  run.2 = Ok true ∧
  log run.1 =
    [Print (MsgTargetCountries ["JP"]); Print (MsgReadingSource "a.mmdb");
     OpenDatabase "a.mmdb"; ReaderClose; Print (MsgTotals 1 1);
     Print MsgCreating; NewWriter 6 true "ipinfo.lite";
     InsertNetwork [Examples.net_low] (Examples.record "JP");
     ToDbFile "out.mmdb"; Print (MsgOutputFile "out.mmdb" 1);
     Print MsgStatsHeader; Print (MsgStat "JP" 1)].
Proof. split_and!; by vm_compute. Qed.

(** C5 (amended): every exception met by [generate_mmdb] reaches the
    caller unchanged, except an [ImportError] of the import block, which
    is printed and turned into the return value [False], and the
    exceptions of class [Exception] raised in the [try] around
    [insert_network], which are dropped.  So a run that returns [True] has
    opened and read the source and written the output without any
    exception but dropped ones; a run that returns [False] has printed the
    import error; and an exception that comes out is the one a
    collaborator or the filter raised. *)
Theorem errors_propagate_except_insert w src out cs st st' r :
  generate_mmdb w src out cs st = (st', r) →
  match r with
  | Ok true =>
      import_packages w = None ∧
      ∃ items wr b,
        open_database w (fs st) src = Ok (items, None) ∧
        Forall (select_ok (list_to_set cs)) items ∧
        final_writer w (retained (list_to_set cs) items) = Ok wr ∧
        Forall dropped wr ∧
        to_db_file w wr out = Written b
  | Ok false =>
      ∃ e,
        import_packages w = Some e ∧
        isinstance_ImportError e = true ∧
        Print (MsgMissingDependency e) ∈ log st'
  | Raise e =>
      (import_packages w = Some e ∧ isinstance_ImportError e = false) ∨
      import_packages w = None ∧
      (open_database w (fs st) src = Raise e ∨
       ∃ items oe,
         open_database w (fs st) src = Ok (items, oe) ∧
         ((∃ item, item ∈ items ∧ select item.2 (list_to_set cs) = Raise e) ∨
          oe = Some e ∨
          (∃ wr ip_set data,
             insert_network w wr ip_set data = Some e ∧
             isinstance_Exception e = false) ∨
          ∃ wr remains, to_db_file w wr out = WriteFailed e remains))
  end.
Proof.
  intros Hrun%generate_mmdb_outcome.
  inversion Hrun as
    [e ? ?|e ? ?|e ? Hopen|items oe prog e ? Hopen ? Hread
    |items prog k e ? Hopen ? ? Hraise He
    |items prog wr e remains ? Hopen ? ? ? ? ? Hw|items prog wr b]; subst.
  - exists e. split_and!; [done..|]. simpl.
    rewrite elem_of_app. right. by left.
  - by left.
  - right. split; [done|]. by left.
  - right. split; [done|]. right. exists items, oe. split; [done|].
    destruct Hread as [?|[_ ?]]; eauto.
  - right. split; [done|]. right. exists items, None. split; [done|].
    destruct Hraise as (wr & ip_set & data & ?). eauto 10.
  - right. split; [done|]. right. exists items, None. split; [done|]. eauto 10.
  - split; [done|]. exists items, wr, b. done.
Qed.

Lemma errors_propagate_witness :
  let items := [(Examples.net_low, Examples.record "JP")] in
  let w := Examples.world_of items [] None (λ _, WriteFailed OSError None) in
  (import_packages w = Some OSError ∧ isinstance_ImportError OSError = false) ∨
  import_packages w = None ∧
  (open_database w ∅ "a.mmdb" = Raise OSError ∨
   ∃ items' oe,
     open_database w ∅ "a.mmdb" = Ok (items', oe) ∧
     ((∃ item, item ∈ items' ∧ select item.2 (list_to_set ["JP"]) = Raise OSError) ∨
      oe = Some OSError ∨
      (∃ wr ip_set data,
         insert_network w wr ip_set data = Some OSError ∧
         isinstance_Exception OSError = false) ∨
      ∃ wr remains, to_db_file w wr "out.mmdb" = WriteFailed OSError remains)).
Proof.
  apply (errors_propagate_except_insert
           (Examples.world_of [(Examples.net_low, Examples.record "JP")] []
              None (λ _, WriteFailed OSError None))
           "a.mmdb" "out.mmdb" ["JP"] Examples.start
           (State ∅
              [Print (MsgTargetCountries ["JP"]);
               Print (MsgReadingSource "a.mmdb"); OpenDatabase "a.mmdb";
               ReaderClose; Print (MsgTotals 1 1); Print MsgCreating;
               NewWriter 6 true "ipinfo.lite";
               InsertNetwork [Examples.net_low] (Examples.record "JP");
               ToDbFile "out.mmdb"])
           (Raise OSError)).
  by vm_compute.
Defined.

(** ** The output file (C6) *)

(** C6, as stated, fails: [to_db_file] is called on the destination path
    itself, and when it fails after writing one byte, the exception comes
    out of [generate_mmdb] with that byte left at the destination. *)
Lemma partial_output_left_in_place :
  let items := [(Examples.net_low, Examples.record "JP")] in
  let w := Examples.world_of items [] None
             (λ _, WriteFailed OSError (Some [Byte.x00])) in
  let run := generate_mmdb w "a.mmdb" "out.mmdb" ["JP"] Examples.start in
  run.2 = Raise OSError ∧
  written_paths (log run.1) = ["out.mmdb"] ∧
  fs Examples.start !! "out.mmdb" = None ∧
  fs run.1 !! "out.mmdb" = Some [Byte.x00].
Proof. split_and!; by vm_compute. Qed.

Lemma written_paths_none cset src items prog k :
  Forall is_progress prog →
  written_paths (prologue cset src ++ prog) = [] ∧
  written_paths (prologue cset src ++ prog ++ setup cset items ++
                 map insert_event (take k (retained cset items))) = [].
Proof.
  intros Hprog. unfold written_paths.
  rewrite !omap_app, (omap_progress _ prog), omap_insert_event by done.
  simpl. by rewrite omap_none.
Qed.

Lemma written_paths_one cset src out items prog :
  Forall is_progress prog →
  written_paths (prologue cset src ++ prog ++ setup cset items ++
                 map insert_event (retained cset items) ++ [ToDbFile out])
  = [out].
Proof.
  intros Hprog. unfold written_paths.
  rewrite !omap_app, (omap_progress _ prog), omap_insert_event by done.
  simpl. by rewrite omap_none.
Qed.

(** C6 (amended): [generate_mmdb] changes no file but the one at the
    output path, and that one only through a single [to_db_file] call made
    on the output path itself: either the call is not reached and the file
    system is unchanged, or it is made once, and the file system is left
    as the call left it, with the bytes written on success and, on
    failure, with whatever the failed call left at the output path. *)
Theorem output_written_in_place w src out cs st st' r :
  generate_mmdb w src out cs st = (st', r) →
  (∀ p, p ≠ out → fs st' !! p = fs st !! p) ∧
  ∃ evs,
    log st' = log st ++ evs ∧
    ((written_paths evs = [] ∧ fs st' = fs st) ∨
     (written_paths evs = [out] ∧
      ∃ wr,
        match to_db_file w wr out with
        | Written b => r = Ok true ∧ fs st' = <[out := b]> (fs st)
        | WriteFailed e remains =>
            r = Raise e ∧
            fs st' = from_option (λ b, <[out := b]> (fs st)) (fs st) remains
        end)).
Proof.
  intros Hrun%generate_mmdb_outcome.
  inversion Hrun as
    [e ? ?|e ? ?|e ? Hopen|items oe prog e ? Hopen Hprog Hread
    |items prog k e ? Hopen Hprog ? Hraise He
    |items prog wr e remains ? Hopen Hprog ? ? ? ? Hw
    |items prog wr b ? Hopen Hprog ? ? ? ? Hw]; subst; simpl.
  - split; [done|]. eexists. split; [done|]. by left.
  - split; [done|]. exists []. rewrite app_nil_r. split; [done|]. by left.
  - split; [done|]. eexists. split; [done|]. by left.
  - split; [done|]. eexists. split; [done|]. left.
    split; [|done]. by apply (written_paths_none _ _ items _ 0%nat).
  - split; [done|]. eexists. split; [done|]. left.
    split; [|done]. by apply written_paths_none.
  - split.
    { intros p Hp. destruct remains as [b|]; simpl; [|done].
      by rewrite lookup_insert_ne. }
    eexists. split; [done|]. right.
    split; [by apply written_paths_one|]. exists wr. by rewrite Hw.
  - split; [by intros p Hp; rewrite lookup_insert_ne|].
    eexists. split; [done|]. right.
    split; [by apply written_paths_success|]. exists wr. by rewrite Hw.
Qed.

Lemma output_written_witness :
  let items := [(Examples.net_low, Examples.record "JP")] in
  let run :=
    generate_mmdb (Examples.plain items) "a.mmdb" "out.mmdb" ["JP"]
      Examples.start in
  (∀ p, p ≠ "out.mmdb" → fs run.1 !! p = fs Examples.start !! p) ∧
  ∃ evs,
    log run.1 = [] ++ evs ∧
    ((written_paths evs = [] ∧ fs run.1 = fs Examples.start) ∨
     (written_paths evs = ["out.mmdb"] ∧
      ∃ wr,
        match to_db_file (Examples.plain items) wr "out.mmdb" with
        | Written b =>
            run.2 = Ok true ∧ fs run.1 = <[ "out.mmdb" := b]> (fs Examples.start)
        | WriteFailed e remains =>
            run.2 = Raise e ∧
            fs run.1 =
              from_option (λ b, <[ "out.mmdb" := b]> (fs Examples.start))
                (fs Examples.start) remains
        end)).
Proof.
  apply (output_written_in_place
           (Examples.plain [(Examples.net_low, Examples.record "JP")])
           "a.mmdb" "out.mmdb" ["JP"] Examples.start).
  apply surjective_pairing.
Defined.

(** ** What reaches the writer (C3) *)

(** C3, as stated, fails: the two halves of 203.0.113.0/24, both with the
    record of country JP, are passed to the writer as two sets of one /25
    network each; the parent /24 is never passed. *)
Lemma adjacent_halves_not_merged :
  let jp := Examples.record "JP" in
  let items := [(Examples.net_low, jp); (Examples.net_high, jp)] in
  let run :=
    generate_mmdb (Examples.plain items) "a.mmdb" "out.mmdb" ["JP"]
      Examples.start in
  value Examples.net_high = value Examples.net_low + 2 ^ (32 - 25) ∧
  Examples.net_parent =
    Network 4 (value Examples.net_low) (prefixlen Examples.net_low - 1) ∧
  run.2 = Ok true ∧
  insertions (log run.1) = [([Examples.net_low], jp); ([Examples.net_high], jp)] ∧
  ([Examples.net_parent], jp) ∉ insertions (log run.1).
Proof.
  assert (insertions
            (log (generate_mmdb
                    (Examples.plain [(Examples.net_low, Examples.record "JP");
                                     (Examples.net_high, Examples.record "JP")])
                    "a.mmdb" "out.mmdb" ["JP"] Examples.start).1) =
          [([Examples.net_low], Examples.record "JP");
           ([Examples.net_high], Examples.record "JP")]) as Hins
    by (by vm_compute).
  cbn zeta. split_and!; [by vm_compute..|done|].
  rewrite Hins. intros [[=]|[[=]|[]%elem_of_nil]%elem_of_cons]%elem_of_cons.
Qed.

(** C3 (amended): in a run that returns [True] every retained entry is
    passed to the writer on its own, as the set of its one network and in
    the order of the source: as many [insert_network] calls as retained
    entries, each with a network of the source; the script merges
    nothing. *)
Theorem entries_inserted_one_by_one w src out cs st st' items :
  open_database w (fs st) src = Ok (items, None) →
  generate_mmdb w src out cs st = (st', Ok true) →
  ∃ evs,
    log st' = log st ++ evs ∧
    insertions evs =
      map (λ item, ([item.1], item.2)) (retained (list_to_set cs) items) ∧
    length (insertions evs) = length (retained (list_to_set cs) items) ∧
    ∀ ip_set data,
      (ip_set, data) ∈ insertions evs → ∃ n, ip_set = [n] ∧ (n, data) ∈ items.
Proof.
  intros Hopen Hrun.
  destruct (run_observed _ _ _ _ _ _ _ Hopen Hrun) as (evs & Hlog & Hins & _).
  exists evs. split_and!; [done..| |].
  - by rewrite Hins, length_map.
  - intros ip_set data. rewrite Hins, list_elem_of_In, in_map_iff.
    intros ([n d] & [= <- <-] & [Hin _]%list_elem_of_In%elem_of_retained).
    by exists n.
Qed.

Lemma entries_inserted_witness :
  let jp := Examples.record "JP" in
  let items := [(Examples.net_low, jp); (Examples.net_high, jp)] in
  ∃ evs,
    log (generate_mmdb (Examples.plain items) "a.mmdb" "out.mmdb" ["JP"]
           Examples.start).1 = [] ++ evs ∧
    insertions evs =
      map (λ item, ([item.1], item.2)) (retained (list_to_set ["JP"]) items) ∧
    length (insertions evs) = length (retained (list_to_set ["JP"]) items) ∧
    ∀ ip_set data,
      (ip_set, data) ∈ insertions evs → ∃ n, ip_set = [n] ∧ (n, data) ∈ items.
Proof.
  apply (entries_inserted_one_by_one
           (Examples.plain [(Examples.net_low, Examples.record "JP");
                            (Examples.net_high, Examples.record "JP")])
           "a.mmdb" "out.mmdb" ["JP"] Examples.start);
    by vm_compute.
Defined.

(** * Further properties of the script *)

(** ** [download_mmdb] *)

Lemma download_mmdb_run w url dest st :
  download_mmdb w url dest st =
  match urlretrieve w url dest with
  | Written b =>
      (State (<[dest := b]> (fs st))
         (log st ++ [Print (MsgDownloading url); Urlretrieve url dest;
                     Print (MsgDownloaded (Z.of_nat (length b)))]),
       Ok true)
  | WriteFailed e remains =>
      let fs' := from_option (λ b, <[dest := b]> (fs st)) (fs st) remains in
      if isinstance_Exception e then
        (State fs'
           (log st ++ [Print (MsgDownloading url); Urlretrieve url dest;
                       Print (MsgDownloadFailed e)]),
         Ok false)
      else
        (State fs'
           (log st ++ [Print (MsgDownloading url); Urlretrieve url dest]),
         Raise e)
  end.
Proof.
  unfold download_mmdb, try_except. run. unfold write_file, getsize.
  destruct (urlretrieve w url dest) as [b|e [b|]]; run.
  - rewrite lookup_insert_eq. run. by rewrite <-!app_assoc.
  - destruct (isinstance_Exception e); run; by rewrite <-!app_assoc.
  - destruct (isinstance_Exception e); run; by rewrite <-!app_assoc.
Qed.

(** X1: [download_mmdb] returns [True] exactly when [urlretrieve]
    succeeded, with the downloaded bytes at the destination; a failure of
    class [Exception] is printed and turned into [False]; only an
    exception outside [Exception] comes out.  Nothing is cleaned up: what
    a failed download left at the destination stays there. *)
Theorem download_mmdb_catches w url dest st st' r :
  download_mmdb w url dest st = (st', r) →
  match r with
  | Ok true =>
      ∃ b,
        urlretrieve w url dest = Written b ∧
        fs st' = <[dest := b]> (fs st) ∧
        log st' =
          log st ++ [Print (MsgDownloading url); Urlretrieve url dest;
                     Print (MsgDownloaded (Z.of_nat (length b)))]
  | Ok false =>
      ∃ e remains,
        urlretrieve w url dest = WriteFailed e remains ∧
        isinstance_Exception e = true ∧
        fs st' = from_option (λ b, <[dest := b]> (fs st)) (fs st) remains ∧
        log st' =
          log st ++ [Print (MsgDownloading url); Urlretrieve url dest;
                     Print (MsgDownloadFailed e)]
  | Raise e =>
      ∃ remains,
        urlretrieve w url dest = WriteFailed e remains ∧
        isinstance_Exception e = false ∧
        fs st' = from_option (λ b, <[dest := b]> (fs st)) (fs st) remains
  end.
Proof.
  rewrite download_mmdb_run.
  destruct (urlretrieve w url dest) as [b|e remains] eqn:Hurl.
  - intros [= <- <-]. by exists b.
  - cbn zeta. destruct (isinstance_Exception e) eqn:He; intros [= <- <-].
    + by exists e, remains.
    + by exists remains.
Qed.

Lemma download_mmdb_catches_witness :
  let w := World None (λ _ _, Raise OSError) (λ _ _ _, None)
             (λ _ _, Written [])
             (λ _ _, WriteFailed URLError (Some [Byte.x00])) "/tmp" in
  ∃ e remains,
    urlretrieve w MMDB_SOURCE_URL "/tmp/x" = WriteFailed e remains ∧
    isinstance_Exception e = true ∧
    fs (download_mmdb w MMDB_SOURCE_URL "/tmp/x" Examples.start).1 =
      from_option (λ b, <[ "/tmp/x" := b]> (fs Examples.start))
        (fs Examples.start) remains ∧
    log (download_mmdb w MMDB_SOURCE_URL "/tmp/x" Examples.start).1 =
      log Examples.start ++
      [Print (MsgDownloading MMDB_SOURCE_URL);
       Urlretrieve MMDB_SOURCE_URL "/tmp/x"; Print (MsgDownloadFailed e)].
Proof.
  apply (download_mmdb_catches
           (World None (λ _ _, Raise OSError) (λ _ _ _, None)
              (λ _ _, Written [])
              (λ _ _, WriteFailed URLError (Some [Byte.x00])) "/tmp")
           MMDB_SOURCE_URL "/tmp/x" Examples.start _ (Ok false)).
  by vm_compute.
Defined.

(** ** [main] *)

Lemma main_with_source w a p st :
  source a = Some p → p ≠ "" → is_Some (fs st !! p) →
  main w a st = main_generate w p a st.
Proof.
  intros Hsrc Hne Hp. unfold main, main_generate. rewrite bind_run, Hsrc.
  rewrite bool_decide_eq_false_2 by done. unfold exists_.
  rewrite bool_decide_eq_true_2 by done. cbn iota. by run.
Qed.

Lemma main_download_run w a st :
  main_download w a st =
  match download_mmdb w MMDB_SOURCE_URL (download_path w) st with
  | (st1, Ok true) => main_generate w (download_path w) a st1
  | (st1, Ok false) => (st1, Raise (SystemExit 1))
  | (st1, Raise e) => (st1, Raise e)
  end.
Proof.
  unfold main_download, main_generate, download_path, sys_exit. cbn zeta.
  rewrite bind_run.
  destruct (download_mmdb w _ _ st) as [st1 [[]|e]]; [|done..]. by run.
Qed.

Lemma generate_mmdb_events w src out cs st st' r :
  generate_mmdb w src out cs st = (st', r) →
  ∃ evs, log st' = log st ++ evs ∧ Forall (generate_event src out) evs.
Proof.
  intros Hrun%generate_mmdb_outcome.
  assert (∀ prog, Forall is_progress prog →
                  Forall (generate_event src out) prog) as Hprog.
  { intros prog Hp. apply (Forall_impl _ _ _ Hp). by intros ev [t ->]. }
  assert (∀ l, Forall (generate_event src out) (map insert_event l)) as Hins.
  { intros l. induction l; by constructor. }
  assert (∀ cset n items, Forall (generate_event src out)
                            (report cset out n items)) as Hrep.
  { intros cset n items. unfold report. apply Forall_app. split.
    - by repeat constructor.
    - generalize (sorted cset). intros l. induction l; by constructor. }
  inversion Hrun; subst; cbn [log];
    [eexists; split; [reflexivity|]
    |exists []; split; [by rewrite app_nil_r|]
    |eexists; split; [reflexivity|]..];
    unfold prologue, setup;
    repeat first [rewrite Forall_app|rewrite Forall_cons];
    repeat split; auto; by constructor.
Qed.

Lemma generate_mmdb_fs w src out cs st st' r :
  generate_mmdb w src out cs st = (st', r) →
  ∀ p, p ≠ out → fs st' !! p = fs st !! p.
Proof.
  intros Hrun%generate_mmdb_outcome p Hp.
  inversion Hrun as [| | | | |? ? ? ? remains|]; subst; simpl; try done.
  - destruct remains; simpl; [by rewrite lookup_insert_ne|done].
  - by rewrite lookup_insert_ne.
Qed.

Lemma main_generate_spec w src a st st' r :
  main_generate w src a st = (st', r) →
  (∀ p, p ≠ output a → fs st' !! p = fs st !! p) ∧
  ∃ evs,
    log st' = log st ++ evs ∧
    match r with
    | Ok _ =>
        ∃ evs0,
          evs = evs0 ++ [Print MsgDone] ∧
          Forall (generate_event src (output a)) evs0 ∧
          written_paths evs0 = [output a] ∧
          is_Some (fs st' !! output a)
    | Raise _ => Forall (generate_event src (output a)) evs
    end.
Proof.
  unfold main_generate, sys_exit. rewrite bind_run.
  destruct (generate_mmdb w src (output a) (countries a) st)
    as [st1 [[]|e]] eqn:Hrun; cbn [negb]; run; intros [= <- <-].
  - pose proof (generate_mmdb_fs _ _ _ _ _ _ _ Hrun) as Hfs.
    destruct (generate_mmdb_events _ _ _ _ _ _ _ Hrun) as (evs & Hlog & Hevs).
    apply generate_mmdb_true in Hrun as Htrue.
    destruct Htrue as (items & prog & wr & b & _ & Hopen & Hprog & _ & _ & _
                       & _ & Hfs1 & Hlog1).
    split; [done|]. exists (evs ++ [Print MsgDone]). simpl.
    split; [by rewrite Hlog, <-app_assoc|]. exists evs. split_and!; [done..| |].
    + rewrite Hlog in Hlog1. apply app_inv_head in Hlog1 as ->.
      by apply written_paths_success.
    + rewrite Hfs1, lookup_insert_eq. eauto.
  - split; [by eapply generate_mmdb_fs|]. by eapply generate_mmdb_events.
  - split; [by eapply generate_mmdb_fs|]. by eapply generate_mmdb_events.
Qed.

Lemma main_run w a st :
  main w a st =
  match source a with
  | Some p =>
      if bool_decide (p ≠ "" ∧ is_Some (fs st !! p))
      then main_generate w p a st
      else main_download w a st
  | None => main_download w a st
  end.
Proof.
  destruct (source a) as [p|] eqn:Hsrc.
  - case_bool_decide as Hp.
    + destruct Hp. by apply main_with_source.
    + apply main_without_source. rewrite Hsrc.
      destruct (decide (p = "")) as [->|]; [by right; left|].
      right; right. exists p. split; [done|].
      apply eq_None_not_Some. tauto.
  - apply main_without_source. by left.
Qed.

Lemma generate_event_downloads src out evs :
  Forall (generate_event src out) evs →
  downloads evs = [] ∧
  (Print MsgDone ∉ evs) ∧
  (∀ q, q ∈ opened_paths evs → q = src) ∧
  (∀ q, q ∈ written_paths evs → q = out).
Proof.
  induction 1 as [|ev evs Hev _ (IH1 & IH2 & IH3 & IH4)].
  { split_and!; [done|by intros ?%elem_of_nil
                |by intros ? ?%elem_of_nil..]. }
  unfold downloads, opened_paths, written_paths in *.
  split_and!.
  - destruct ev as [[]| | | | | |]; simpl in *; done.
  - intros [<-|?]%elem_of_cons; [done|by apply IH2].
  - intros q. destruct ev as [[]| | | | | |]; simpl in *; try apply IH3; try done.
    intros [->|?]%elem_of_cons; [done|by apply IH3].
  - intros q. destruct ev as [[]| | | | | |]; simpl in *; try apply IH4; try done.
    intros [->|?]%elem_of_cons; [done|by apply IH4].
Qed.

(** X2: [main] prints the completion message only at the very end of a
    run in which [to_db_file] was called on the output path and left a
    file there; a run that ends in an exception or in [sys.exit] never
    prints it. *)
Theorem main_done_after_output w a st st' r :
  main w a st = (st', r) →
  ∃ evs,
    log st' = log st ++ evs ∧
    match r with
    | Ok _ =>
        last evs = Some (Print MsgDone) ∧
        ToDbFile (output a) ∈ evs ∧
        is_Some (fs st' !! output a)
    | Raise _ => Print MsgDone ∉ evs
    end.
Proof.
  assert (∀ src st0 st1 r1,
            main_generate w src a st0 = (st1, r1) →
            ∃ evs,
              log st1 = log st0 ++ evs ∧
              match r1 with
              | Ok _ =>
                  last evs = Some (Print MsgDone) ∧
                  ToDbFile (output a) ∈ evs ∧
                  is_Some (fs st1 !! output a)
              | Raise _ => Print MsgDone ∉ evs
              end) as Hgen.
  { intros src st0 st1 r1 (_ & evs & Hlog & Hr)%main_generate_spec.
    exists evs. split; [done|]. destruct r1 as [[]|e].
    - destruct Hr as (evs0 & -> & _ & Hpaths & Hfile).
      split_and!; [by rewrite last_snoc| |done].
      apply elem_of_app. left.
      assert (output a ∈ written_paths evs0) as Hin
        by (rewrite Hpaths; by left).
      unfold written_paths in Hin.
      apply list_elem_of_omap in Hin as (ev & Hev & Hpath).
      by destruct ev as [[]| | | | | |]; simplify_eq/=.
    - by apply generate_event_downloads in Hr as (_ & ? & _). }
  rewrite main_run.
  assert (main_download w a st = (st', r) →
          ∃ evs,
            log st' = log st ++ evs ∧
            match r with
            | Ok _ =>
                last evs = Some (Print MsgDone) ∧
                ToDbFile (output a) ∈ evs ∧
                is_Some (fs st' !! output a)
            | Raise _ => Print MsgDone ∉ evs
            end) as Hdl.
  { rewrite main_download_run, download_mmdb_run.
    destruct (urlretrieve w MMDB_SOURCE_URL (download_path w))
      as [b|e remains].
    - intros (evs & Hlog & Hr)%Hgen. simpl in Hlog.
      eexists. split; [by rewrite Hlog, <-app_assoc|].
      destruct r as [[]|e].
      + destruct Hr as (Hlast & Hin & Hfile).
        split_and!; [|by apply elem_of_app; right|done].
        by rewrite last_app, Hlast.
      + intros [Hin|Hin]%elem_of_app; [|done].
        repeat (apply elem_of_cons in Hin as [[=]|Hin]).
        by apply elem_of_nil in Hin.
    - cbn zeta. destruct (isinstance_Exception e); intros [= <- <-];
        simpl; eexists; (split; [done|]); intros Hin;
        repeat (apply elem_of_cons in Hin as [[=]|Hin]);
        by apply elem_of_nil in Hin. }
  destruct (source a) as [p|]; [|done].
  case_bool_decide; [by apply Hgen|done].
Qed.

Lemma main_done_witness :
  let w := Examples.plain [(Examples.net_low, Examples.record "JP")] in
  let a := Args (Some "a.mmdb") "out.mmdb" ["JP"] in
  let st := State {[ "a.mmdb" := [] ]} [] in
  ∃ evs,
    log (main w a st).1 = log st ++ evs ∧
    last evs = Some (Print MsgDone) ∧
    ToDbFile (output a) ∈ evs ∧
    is_Some (fs (main w a st).1 !! output a).
Proof.
  apply (main_done_after_output
           (Examples.plain [(Examples.net_low, Examples.record "JP")])
           (Args (Some "a.mmdb") "out.mmdb" ["JP"])
           (State {[ "a.mmdb" := [] ]} []) _ (Ok tt)).
  by vm_compute.
Defined.

(** X3: when the source has to be downloaded and [urlretrieve] fails with
    an exception of class [Exception], [main] prints the failure and ends
    in [sys.exit(1)]: no database is opened and no output is written. *)
Theorem main_exits_when_download_fails w a st e remains :
  source_unusable a st →
  urlretrieve w MMDB_SOURCE_URL (download_path w) = WriteFailed e remains →
  isinstance_Exception e = true →
  main w a st =
  (State (from_option (λ b, <[download_path w := b]> (fs st)) (fs st) remains)
     (log st ++ [Print (MsgDownloading MMDB_SOURCE_URL);
                 Urlretrieve MMDB_SOURCE_URL (download_path w);
                 Print (MsgDownloadFailed e)]),
   Raise (SystemExit 1)).
Proof.
  intros Hsrc Hurl He.
  rewrite main_without_source, main_download_run, download_mmdb_run by done.
  by rewrite Hurl, He.
Qed.

Lemma main_exits_when_download_fails_witness :
  let w := World None (λ _ _, Raise OSError) (λ _ _ _, None)
             (λ _ _, Written []) (λ _ _, WriteFailed URLError None) "/tmp" in
  main w default_args Examples.start =
  (State ∅
     [Print (MsgDownloading MMDB_SOURCE_URL);
      Urlretrieve MMDB_SOURCE_URL "/tmp/ipinfo.country.mmdb";
      Print (MsgDownloadFailed URLError)],
   Raise (SystemExit 1)).
Proof.
  apply (main_exits_when_download_fails
           (World None (λ _ _, Raise OSError) (λ _ _ _, None)
              (λ _ _, Written []) (λ _ _, WriteFailed URLError None) "/tmp")
           default_args Examples.start URLError None).
  - by left.
  - reflexivity.
  - reflexivity.
Defined.

(** X4: when [--source] names an existing file, [main] downloads nothing,
    opens no database but that file, and changes no file but the one at
    the output path. *)
Theorem main_uses_existing_source w a p st st' r :
  source a = Some p →
  p ≠ "" →
  is_Some (fs st !! p) →
  main w a st = (st', r) →
  (∀ q, q ≠ output a → fs st' !! q = fs st !! q) ∧
  ∃ evs,
    log st' = log st ++ evs ∧
    downloads evs = [] ∧
    ∀ q, q ∈ opened_paths evs → q = p.
Proof.
  intros Hsrc Hne Hp. rewrite (main_with_source w a p) by done.
  intros (Hfs & evs & Hlog & Hr)%main_generate_spec.
  split; [done|]. exists evs. split; [done|]. destruct r as [[]|e].
  - destruct Hr as (evs0 & -> & (Hd & _ & Ho & _)%generate_event_downloads & _).
    unfold downloads, opened_paths in *. rewrite !omap_app. simpl.
    rewrite !app_nil_r. done.
  - by apply generate_event_downloads in Hr as (? & _ & ? & _).
Qed.

Lemma main_uses_existing_source_witness :
  let w := Examples.plain [(Examples.net_low, Examples.record "JP")] in
  let a := Args (Some "a.mmdb") "out.mmdb" ["JP"] in
  let st := State {[ "a.mmdb" := [] ]} [] in
  (∀ q, q ≠ output a → fs (main w a st).1 !! q = fs st !! q) ∧
  ∃ evs,
    log (main w a st).1 = log st ++ evs ∧
    downloads evs = [] ∧
    ∀ q, q ∈ opened_paths evs → q = "a.mmdb".
Proof.
  apply (main_uses_existing_source
           (Examples.plain [(Examples.net_low, Examples.record "JP")])
           (Args (Some "a.mmdb") "out.mmdb" ["JP"]) "a.mmdb"
           (State {[ "a.mmdb" := [] ]} []) _
           (main (Examples.plain [(Examples.net_low, Examples.record "JP")])
              (Args (Some "a.mmdb") "out.mmdb" ["JP"])
              (State {[ "a.mmdb" := [] ]} [])).2).
  - reflexivity.
  - done.
  - eexists. by vm_compute.
  - apply surjective_pairing.
Defined.

(** X5: the packages are looked for only after the source is there: when
    the source has to be downloaded and the packages are missing, [main]
    downloads the whole file, and only then prints that a dependency is
    missing and ends in [sys.exit(1)]. *)
Theorem main_downloads_before_import w a st b e :
  source_unusable a st →
  urlretrieve w MMDB_SOURCE_URL (download_path w) = Written b →
  import_packages w = Some e →
  isinstance_ImportError e = true →
  main w a st =
  (State (<[download_path w := b]> (fs st))
     (log st ++ [Print (MsgDownloading MMDB_SOURCE_URL);
                 Urlretrieve MMDB_SOURCE_URL (download_path w);
                 Print (MsgDownloaded (Z.of_nat (length b)));
                 Print (MsgMissingDependency e);
                 Print MsgInstallHint]),
   Raise (SystemExit 1)).
Proof.
  intros Hsrc Hurl Himp He.
  rewrite main_without_source, main_download_run, download_mmdb_run by done.
  rewrite Hurl. unfold main_generate, sys_exit. rewrite bind_run.
  destruct (generate_mmdb w _ _ _ _) as [st1 r1] eqn:Hrun.
  apply generate_mmdb_outcome in Hrun.
  inversion Hrun; subst; try congruence.
  assert (e0 = e) as -> by congruence.
  cbn [negb]. run. by rewrite <-app_assoc.
Qed.

Lemma main_downloads_before_import_witness :
  let w := World (Some ModuleNotFoundError) (λ _ _, Raise OSError)
             (λ _ _ _, None) (λ _ _, Written [])
             (λ _ _, Written [Byte.x00; Byte.x01]) "/tmp" in
  main w default_args Examples.start =
  (State {[ "/tmp/ipinfo.country.mmdb" := [Byte.x00; Byte.x01] ]}
     [Print (MsgDownloading MMDB_SOURCE_URL);
      Urlretrieve MMDB_SOURCE_URL "/tmp/ipinfo.country.mmdb";
      Print (MsgDownloaded 2);
      Print (MsgMissingDependency ModuleNotFoundError);
      Print MsgInstallHint],
   Raise (SystemExit 1)).
Proof.
  apply (main_downloads_before_import
           (World (Some ModuleNotFoundError) (λ _ _, Raise OSError)
              (λ _ _ _, None) (λ _ _, Written [])
              (λ _ _, Written [Byte.x00; Byte.x01]) "/tmp")
           default_args Examples.start [Byte.x00; Byte.x01]
           ModuleNotFoundError).
  - by left.
  - reflexivity.
  - reflexivity.
  - reflexivity.
Defined.

(** X6: [main] changes no file but the output file and the downloaded
    copy of the source in the temporary directory. *)
Theorem main_footprint w a st st' r q :
  main w a st = (st', r) →
  q ≠ output a →
  q ≠ download_path w →
  fs st' !! q = fs st !! q.
Proof.
  rewrite main_run. intros Hrun Hout Hdl.
  assert (∀ src st0, main_generate w src a st0 = (st', r) →
                     fs st' !! q = fs st0 !! q) as Hgen.
  { intros src st0 [Hfs _]%main_generate_spec. by apply Hfs. }
  assert (main_download w a st = (st', r) → fs st' !! q = fs st !! q) as Hd.
  { rewrite main_download_run, download_mmdb_run.
    destruct (urlretrieve w MMDB_SOURCE_URL (download_path w))
      as [b|e [b|]]; cbn zeta.
    - intros ->%Hgen. simpl. by rewrite lookup_insert_ne.
    - destruct (isinstance_Exception e); intros [= <- <-]; simpl;
        by rewrite lookup_insert_ne.
    - by destruct (isinstance_Exception e); intros [= <- <-]. }
  destruct (source a) as [p|]; [|by apply Hd].
  case_bool_decide; [by eapply Hgen|by apply Hd].
Qed.

Lemma main_footprint_witness :
  let w := Examples.plain [(Examples.net_low, Examples.record "JP")] in
  let a := Args (Some "a.mmdb") "out.mmdb" ["JP"] in
  let st := State {[ "a.mmdb" := [Byte.x07] ]} [] in
  fs (main w a st).1 !! "a.mmdb" = fs st !! "a.mmdb".
Proof.
  apply (main_footprint
           (Examples.plain [(Examples.net_low, Examples.record "JP")])
           (Args (Some "a.mmdb") "out.mmdb" ["JP"])
           (State {[ "a.mmdb" := [Byte.x07] ]} []) _
           (main (Examples.plain [(Examples.net_low, Examples.record "JP")])
              (Args (Some "a.mmdb") "out.mmdb" ["JP"])
              (State {[ "a.mmdb" := [Byte.x07] ]} [])).2 "a.mmdb").
  - apply surjective_pairing.
  - done.
  - done.
Defined.

(** ** [generate_mmdb], forwards *)

Lemma progress_is_progress t : Forall is_progress (progress t).
Proof. unfold progress. destruct (_ =? _); repeat constructor. by eexists. Qed.

Lemma progress_from_is_progress n : ∀ t, Forall is_progress (progress_from t n).
Proof.
  induction n as [|n IH]; intros t; simpl; [by constructor|].
  apply Forall_app. split; [apply progress_is_progress|apply IH].
Qed.

(** The loop reads every record when the filter raises on none. *)
Lemma scan_loop_total cset items : ∀ s st,
  Forall (select_ok cset) items →
  (∀ c, c ∈ cset → is_Some (stats s !! c)) →
  ∃ s',
    scan_loop cset s items st =
    (State (fs st) (log st ++ progress_from (total s) (length items)), Ok s').
Proof.
  induction items as [|[n d] items IH]; intros s st Hsel Hdom.
  - exists s. simpl. by rewrite app_nil_r, state_eta.
  - apply Forall_cons in Hsel as [[o Ho] Hsel]. simpl in Ho.
    rewrite scan_loop_cons, bind_run, scan_step_run, Ho.
    destruct o as [country_code|].
    + pose proof Ho as (c & -> & _ & Hc)%select_Some.
      destruct (Hdom c Hc) as [k Hk]. simpl. rewrite Hk.
      edestruct (IH (Scan (total s + 1) (networks_to_write s ++ [(n, d)])
                       (<[c := k + 1]> (stats s)))) as [s' ->]; [done| |].
      { simpl. intros c' Hc'. destruct (decide (c' = c)) as [->|].
        - rewrite lookup_insert_eq. eauto.
        - rewrite lookup_insert_ne by done. auto. }
      exists s'. simpl. by rewrite <-app_assoc.
    + edestruct (IH (Scan (total s + 1) (networks_to_write s) (stats s)))
        as [s' ->]; [done..|].
      exists s'. simpl. by rewrite <-app_assoc.
Qed.

(** The loop stops at the first record on which the filter raises. *)
Lemma scan_loop_first_error cset pre item post e : ∀ s st,
  Forall (select_ok cset) pre →
  select item.2 cset = Raise e →
  (∀ c, c ∈ cset → is_Some (stats s !! c)) →
  scan_loop cset s (pre ++ item :: post) st =
  (State (fs st) (log st ++ progress_from (total s) (S (length pre))),
   Raise e).
Proof.
  induction pre as [|[n d] pre IH]; intros s st Hsel He Hdom.
  - destruct item as [n d]. simpl in He. simpl app.
    rewrite scan_loop_cons, bind_run, scan_step_run, He. simpl.
    by rewrite app_nil_r.
  - apply Forall_cons in Hsel as [[o Ho] Hsel]. simpl in Ho.
    rewrite <-app_comm_cons, scan_loop_cons, bind_run, scan_step_run, Ho.
    destruct o as [country_code|].
    + pose proof Ho as (c & -> & _ & Hc)%select_Some.
      destruct (Hdom c Hc) as [k Hk]. simpl. rewrite Hk.
      rewrite IH; [|done..|].
      { simpl. by rewrite <-app_assoc. }
      simpl. intros c' Hc'. destruct (decide (c' = c)) as [->|].
      * rewrite lookup_insert_eq. eauto.
      * rewrite lookup_insert_ne by done. auto.
    + rewrite IH by done. simpl. by rewrite <-app_assoc.
Qed.

Lemma generate_mmdb_scan_raise w src out cs st items oe st1 e :
  import_packages w = None →
  open_database w (fs st) src = Ok (items, oe) →
  scan_loop (list_to_set cs) (Scan 0 [] (gset_to_gmap 0 (list_to_set cs)))
    items (State (fs st) (log st ++ prologue (list_to_set cs) src))
  = (st1, Raise e) →
  generate_mmdb w src out cs st = (st1, Raise e).
Proof.
  intros Himp Hopen Hscan. unfold generate_mmdb. rewrite Himp. run.
  rewrite <-!app_assoc. simpl app.
  change (log st ++ _) with (log st ++ prologue (list_to_set cs) src).
  rewrite Hopen. simpl fst; simpl snd. by rewrite bind_run, Hscan.
Qed.

Lemma insert_loop_run w ntw wr st :
  final_writer w ntw = Ok wr →
  insert_loop w [] ntw st =
  (State (fs st) (log st ++ map insert_event ntw), Ok wr).
Proof.
  unfold final_writer. rewrite (insert_loop_result w ntw [] _ st).
  destruct (insert_loop w [] ntw st) as [[fs2 log2] r2] eqn:Hins. simpl.
  intros ->. apply insert_loop_Ok in Hins as (Hfs & Hlog & _).
  simpl in *. by subst.
Qed.

(** A run of [generate_mmdb] in which the source is read to the end. *)
Lemma generate_mmdb_forward w src out cs st items wr :
  import_packages w = None →
  open_database w (fs st) src = Ok (items, None) →
  Forall (select_ok (list_to_set cs)) items →
  final_writer w (retained (list_to_set cs) items) = Ok wr →
  let evs :=
    prologue (list_to_set cs) src ++ progress_from 0 (length items) ++
    setup (list_to_set cs) items ++
    map insert_event (retained (list_to_set cs) items) ++ [ToDbFile out] in
  generate_mmdb w src out cs st =
  match to_db_file w wr out with
  | Written b =>
      (State (<[out := b]> (fs st))
         (log st ++ evs ++
          report (list_to_set cs) out (Z.of_nat (length b)) items),
       Ok true)
  | WriteFailed e remains =>
      (State (from_option (λ b, <[out := b]> (fs st)) (fs st) remains)
         (log st ++ evs),
       Raise e)
  end.
Proof.
  intros Himp Hopen Hsel Hwr. set (cset := list_to_set cs). cbn zeta.
  destruct (scan_loop_total cset items (Scan 0 [] (gset_to_gmap 0 cset))
              (State (fs st) (log st ++ prologue cset src)) Hsel)
    as [s Hscan]; [by intros; apply stats_init_lookup|].
  pose proof Hscan as (Htot & Hntw & Hstats)%scan_loop_Ok.
  cbn [total networks_to_write stats fs log] in *.
  rewrite app_nil_l in Hntw.
  apply stats_final in Hstats as [Hdom Hcount].
  match goal with |- _ = ?rhs => remember rhs as res eqn:Hres end.
  unfold generate_mmdb. rewrite Himp. run.
  rewrite <-!app_assoc. simpl app.
  change (log st ++ _) with (log st ++ prologue cset src).
  rewrite Hopen. simpl fst; simpl snd. fold cset.
  rewrite bind_run, Hscan. run. rewrite Htot, Hntw.
  rewrite (insert_loop_run w _ wr) by done. run.
  unfold write_file, getsize. subst res.
  destruct (to_db_file w wr out) as [b|e [b|]]; run.
  - rewrite lookup_insert_eq. run.
    rewrite print_stats_run
      by (intros c; rewrite elem_of_sorted; apply elem_of_dom).
    rewrite Hdom.
    rewrite (map_ext_in _ (λ c, Print (MsgStat c (count cset c items)))).
    2: { intros c Hc%list_elem_of_In%elem_of_sorted. by rewrite Hcount. }
    unfold report, setup, prologue.
    repeat (progress (rewrite <-?app_assoc; simpl app)). done.
  - unfold setup, prologue.
    repeat (progress (rewrite <-?app_assoc; simpl app)). done.
  - unfold setup, prologue.
    repeat (progress (rewrite <-?app_assoc; simpl app)). done.
Qed.

(** ** The reader, the totals and the progress lines *)

Lemma not_progress_ReaderClose prog :
  Forall is_progress prog → ReaderClose ∉ prog.
Proof.
  intros Hprog Hin. rewrite Forall_forall in Hprog.
  by destruct (Hprog _ Hin) as [t ?].
Qed.

(** X7: [reader.close()] is called iff the source was opened and read to
    the end without an exception: when opening, iterating or the filter
    raises, the reader is left open. *)
Theorem reader_closed_iff_read w src out cs st st' r :
  generate_mmdb w src out cs st = (st', r) →
  ∃ evs,
    log st' = log st ++ evs ∧
    (ReaderClose ∈ evs ↔
     import_packages w = None ∧
     ∃ items,
       open_database w (fs st) src = Ok (items, None) ∧
       Forall (select_ok (list_to_set cs)) items).
Proof.
  intros Hrun%generate_mmdb_outcome.
  assert (∀ evs, ReaderClose ∈ setup (list_to_set cs) evs) as Hsetup
    by (intros; by left).
  inversion Hrun as
    [e Himp ?|e Himp ?|e Himp Hopen|items oe prog e Himp Hopen Hprog Hread
    |items prog k e Himp Hopen Hprog Hsel
    |items prog wr e remains Himp Hopen Hprog Hsel
    |items prog wr b Himp Hopen Hprog Hsel]; subst; cbn [log].
  - eexists. split; [done|]. split; [|by intros [? _]; congruence].
    intros Hin. repeat (apply elem_of_cons in Hin as [[=]|Hin]).
    by apply elem_of_nil in Hin.
  - exists []. rewrite app_nil_r. split; [done|].
    split; [by intros ?%elem_of_nil|by intros [? _]; congruence].
  - eexists. split; [done|]. split; [|by intros (_ & ? & ? & _); congruence].
    intros Hin. repeat (apply elem_of_cons in Hin as [[=]|Hin]).
    by apply elem_of_nil in Hin.
  - eexists. split; [done|]. split.
    + intros [Hin|Hin]%elem_of_app; [|by apply not_progress_ReaderClose in Hin].
      repeat (apply elem_of_cons in Hin as [[=]|Hin]).
      by apply elem_of_nil in Hin.
    + intros (_ & items' & Hopen' & Hsel). rewrite Hopen in Hopen'.
      injection Hopen' as <- ->.
      destruct Hread as [(item & Hitem & Hraise)|[_ ?]]; [|done].
      rewrite Forall_forall in Hsel. destruct (Hsel item Hitem) as [o Ho].
      congruence.
  - eexists. split; [done|]. split; [by eauto|]. intros _.
    rewrite !elem_of_app. auto.
  - eexists. split; [done|]. split; [by eauto|]. intros _.
    rewrite !elem_of_app. auto.
  - eexists. split; [done|]. split; [by eauto|]. intros _.
    rewrite !elem_of_app. auto.
Qed.

Lemma reader_closed_witness :
  let items := [(Examples.net_low, PDict [("country", PStr "JP")])] in
  let run := generate_mmdb (Examples.plain items) "a.mmdb" "out.mmdb" ["JP"]
               Examples.start in
  ∃ evs,
    log run.1 = log Examples.start ++ evs ∧
    (ReaderClose ∈ evs ↔
     import_packages (Examples.plain items) = None ∧
     ∃ items',
       open_database (Examples.plain items) (fs Examples.start) "a.mmdb"
         = Ok (items', None) ∧
       Forall (select_ok (list_to_set ["JP"])) items').
Proof.
  apply (reader_closed_iff_read
           (Examples.plain [(Examples.net_low, PDict [("country", PStr "JP")])])
           "a.mmdb" "out.mmdb" ["JP"] Examples.start _
           (Raise AttributeError)).
  by vm_compute.
Defined.

Lemma sum_counts_add (f g : string → Z) l :
  sum_counts (map (λ c, (c, f c + g c)) l) =
  sum_counts (map (λ c, (c, f c)) l) + sum_counts (map (λ c, (c, g c)) l).
Proof. induction l as [|c l IH]; simpl in *; lia. Qed.

Lemma sum_counts_indicator (o : option string) l :
  NoDup l →
  sum_counts (map (λ c, (c, if bool_decide (o = Some c) then 1 else 0)) l) =
  match o with
  | Some c => if bool_decide (c ∈ l) then 1 else 0
  | None => 0
  end.
Proof.
  induction 1 as [|c l Hc Hl IH]; simpl.
  { by destruct o. }
  rewrite IH. destruct o as [c'|]; [|by rewrite bool_decide_eq_false_2].
  destruct (decide (c' = c)) as [->|Hne].
  - rewrite bool_decide_eq_true_2 by done.
    rewrite bool_decide_eq_false_2 by done.
    by rewrite bool_decide_eq_true_2 by (by left).
  - rewrite bool_decide_eq_false_2 by congruence.
    destruct (decide (c' ∈ l)).
    + rewrite !bool_decide_eq_true_2; [done|by right|done].
    + rewrite !bool_decide_eq_false_2; [done| |done].
      by intros [?|?]%elem_of_cons.
Qed.

Lemma sum_counts_retained cset l items :
  NoDup l →
  (∀ c, c ∈ l ↔ c ∈ cset) →
  sum_counts (map (λ c, (c, count cset c items)) l) =
  Z.of_nat (length (retained cset items)).
Proof.
  intros Hnd Hl. induction items as [|[n d] items IH].
  { simpl. clear. induction l as [|c l IH]; simpl in *; [done|].
    by rewrite IH. }
  rewrite (map_ext _ (λ c, (c, (if bool_decide (code cset d = Some c)
                                then 1 else 0) + count cset c items)))
    by (intros; by rewrite count_cons).
  rewrite sum_counts_add, IH, sum_counts_indicator by done.
  unfold retained. rewrite filter_cons. simpl.
  destruct (code cset d) as [c|] eqn:Hcode.
  - rewrite decide_True by eauto.
    rewrite bool_decide_eq_true_2; [simpl length; lia|].
    apply Hl. by apply code_Some in Hcode as [_ ?].
  - rewrite decide_False by (by intros [? ?]). lia.
Qed.

Lemma NoDup_sorted (cset : gset string) : NoDup (sorted cset).
Proof. unfold sorted. rewrite merge_sort_Permutation. apply NoDup_elements. Qed.

(** X8: in a run that returns [True] the totals line gives the number of
    records read and the number of [insert_network] calls made, and the
    counts of the statistics lines add up to the latter: every retained
    entry is counted under exactly one requested code. *)
Theorem counts_add_up w src out cs st st' items :
  open_database w (fs st) src = Ok (items, None) →
  generate_mmdb w src out cs st = (st', Ok true) →
  ∃ evs,
    log st' = log st ++ evs ∧
    Print (MsgTotals (Z.of_nat (length items))
             (Z.of_nat (length (insertions evs)))) ∈ evs ∧
    sum_counts (stat_lines evs) = Z.of_nat (length (insertions evs)).
Proof.
  intros Hopen Hrun.
  destruct (run_observed _ _ _ _ _ _ _ Hopen Hrun)
    as (evs & Hlog & Hins & Hstat & _).
  apply generate_mmdb_true in Hrun
    as (items' & prog & _ & b & _ & Hopen' & _ & _ & _ & _ & _ & _ & Hlog').
  rewrite Hopen in Hopen'. injection Hopen' as <-.
  rewrite Hlog in Hlog'. apply app_inv_head in Hlog'.
  exists evs. split; [done|]. rewrite Hins, Hstat, length_map. split.
  - rewrite Hlog', !elem_of_app. right; right; left. right. by left.
  - apply sum_counts_retained; [apply NoDup_sorted|apply elem_of_sorted].
Qed.

Lemma counts_add_up_witness :
  let items := [(Examples.net_low, Examples.record "JP");
                (Examples.net_parent, Examples.record "FR");
                (Examples.net_high, Examples.record "US")] in
  ∃ evs,
    log (generate_mmdb (Examples.plain items) "a.mmdb" "out.mmdb"
           ["US"; "JP"; "SG"] Examples.start).1 = log Examples.start ++ evs ∧
    Print (MsgTotals (Z.of_nat (length items))
             (Z.of_nat (length (insertions evs)))) ∈ evs ∧
    sum_counts (stat_lines evs) = Z.of_nat (length (insertions evs)).
Proof.
  apply (counts_add_up
           (Examples.plain [(Examples.net_low, Examples.record "JP");
                            (Examples.net_parent, Examples.record "FR");
                            (Examples.net_high, Examples.record "US")])
           "a.mmdb" "out.mmdb" ["US"; "JP"; "SG"] Examples.start);
    by vm_compute.
Defined.

(** ** Records the filter does not expect *)

Lemma select_country_not_dict d v cset :
  dict_lookup "country" d = Some v →
  (∀ country, v ≠ PDict country) →
  select (PDict d) cset = Raise AttributeError.
Proof.
  intros Hc Hv. unfold select. simpl.
  rewrite (dict_lookup_nonempty _ _ _ Hc), Hc. simpl.
  destruct v; try done. by destruct (Hv d0).
Qed.

(** X9: a record whose ["country"] item is not a dict (a plain country
    code string, say) makes [generate_mmdb] raise [AttributeError] when
    the loop reaches it: the records after it are not read, the reader is
    not closed, no writer is created and no file is written. *)
Theorem country_not_dict_aborts w src out cs st pre n d v post oe :
  import_packages w = None →
  open_database w (fs st) src = Ok (pre ++ (n, PDict d) :: post, oe) →
  Forall (select_ok (list_to_set cs)) pre →
  dict_lookup "country" d = Some v →
  (∀ country, v ≠ PDict country) →
  generate_mmdb w src out cs st =
  (State (fs st)
     (log st ++ prologue (list_to_set cs) src ++
      progress_from 0 (S (length pre))),
   Raise AttributeError).
Proof.
  intros Himp Hopen Hpre Hc Hv.
  eapply generate_mmdb_scan_raise; [done|exact Hopen|].
  rewrite (scan_loop_first_error _ pre (n, PDict d) post AttributeError);
    [cbn [fs log]; by rewrite <-app_assoc|done
    |by eapply select_country_not_dict|].
  intros c Hc'. by apply stats_init_lookup.
Qed.

Lemma country_not_dict_witness :
  let items := [(Examples.net_low, Examples.record "JP");
                (Examples.net_high, PDict [("country", PStr "JP")]);
                (Examples.net_parent, Examples.record "JP")] in
  generate_mmdb (Examples.plain items) "a.mmdb" "out.mmdb" ["JP"]
    Examples.start =
  (State ∅
     [Print (MsgTargetCountries ["JP"]); Print (MsgReadingSource "a.mmdb");
      OpenDatabase "a.mmdb"],
   Raise AttributeError).
Proof.
  apply (country_not_dict_aborts
           (Examples.plain
              [(Examples.net_low, Examples.record "JP");
               (Examples.net_high, PDict [("country", PStr "JP")]);
               (Examples.net_parent, Examples.record "JP")])
           "a.mmdb" "out.mmdb" ["JP"] Examples.start
           [(Examples.net_low, Examples.record "JP")]
           Examples.net_high [("country", PStr "JP")] (PStr "JP")
           [(Examples.net_parent, Examples.record "JP")] None).
  - reflexivity.
  - reflexivity.
  - repeat constructor. by eexists.
  - reflexivity.
  - done.
Defined.

Lemma select_no_country data cset :
  data = PNone ∨ (∃ d, data = PDict d ∧ dict_lookup "country" d = None) →
  select data cset = Ok None.
Proof.
  intros [->|(d & -> & Hd)]; [done|]. unfold select. simpl.
  destruct (bool_decide (length d = 0%nat)); simpl; [done|].
  rewrite Hd. by rewrite bool_decide_eq_false_2 by (by intros [? ?]).
Qed.

(** X10: a source in which no record has a ["country"] item (the record
    is [None], or a dict without that key), and in particular an empty
    source, is not an error: no [insert_network] call is made,
    [to_db_file] is called on the writer as it was created, and every
    requested code is reported with count 0. *)
Theorem source_without_countries w src out cs st items b :
  import_packages w = None →
  open_database w (fs st) src = Ok (items, None) →
  Forall (λ item, item.2 = PNone ∨
                  ∃ d, item.2 = PDict d ∧ dict_lookup "country" d = None)
    items →
  to_db_file w [] out = Written b →
  ∃ st' evs,
    generate_mmdb w src out cs st = (st', Ok true) ∧
    fs st' = <[out := b]> (fs st) ∧
    log st' = log st ++ evs ∧
    insertions evs = [] ∧
    stat_lines evs = map (λ c, (c, 0)) (sorted (list_to_set cs)).
Proof.
  intros Himp Hopen Hitems Hwrite. set (cset := list_to_set cs).
  assert (Forall (λ item, select item.2 cset = Ok None) items) as Hnone.
  { apply (Forall_impl _ _ _ Hitems). intros item. apply select_no_country. }
  assert (Forall (select_ok cset) items) as Hsel.
  { apply (Forall_impl _ _ _ Hnone). intros item ?. by eexists. }
  assert (retained cset items = []) as Hret.
  { unfold retained. clear -Hnone.
    induction Hnone as [|item items Hitem _ IH]; [done|].
    rewrite filter_cons, decide_False; [done|].
    unfold code. rewrite Hitem. by intros [? ?]. }
  assert (∀ c, count cset c items = 0) as Hcount.
  { intros c. apply count_zero. intros n data Hin (d & country & -> & Hd & _).
    rewrite Forall_forall in Hitems.
    destruct (Hitems _ Hin) as [?|(d' & [= <-] & Hd')]; [done|].
    simpl in *. congruence. }
  pose proof (generate_mmdb_forward w src out cs st items [] Himp Hopen Hsel)
    as Hrun.
  fold cset in Hrun. rewrite Hwrite in Hrun. cbn zeta in Hrun.
  exists (State (<[out := b]> (fs st))
            (log st ++
             prologue cset src ++ progress_from 0 (length items) ++
             setup cset items ++ map insert_event (retained cset items) ++
             [ToDbFile out] ++ report cset out (Z.of_nat (length b)) items)).
  eexists. split_and!; [|done|done| |].
  - rewrite Hrun by (by rewrite Hret). by rewrite <-!app_assoc.
  - rewrite insertions_success by apply progress_from_is_progress.
    by rewrite Hret.
  - rewrite stat_lines_success by apply progress_from_is_progress.
    apply map_ext. intros c. by rewrite Hcount.
Qed.

Lemma source_without_countries_witness :
  let items := [(Examples.net_low, PNone);
                (Examples.net_high, PDict [("asn", PStr "AS64496")])] in
  ∃ st' evs,
    generate_mmdb (Examples.plain items) "a.mmdb" "out.mmdb" ["JP"; "CN"]
      Examples.start = (st', Ok true) ∧
    fs st' = <[ "out.mmdb" := [] ]> (fs Examples.start) ∧
    log st' = log Examples.start ++ evs ∧
    insertions evs = [] ∧
    stat_lines evs = map (λ c, (c, 0)) (sorted (list_to_set ["JP"; "CN"])).
Proof.
  apply (source_without_countries
           (Examples.plain
              [(Examples.net_low, PNone);
               (Examples.net_high, PDict [("asn", PStr "AS64496")])])
           "a.mmdb" "out.mmdb" ["JP"; "CN"] Examples.start
           [(Examples.net_low, PNone);
            (Examples.net_high, PDict [("asn", PStr "AS64496")])] []).
  - reflexivity.
  - reflexivity.
  - apply Forall_cons. split; [by left|].
    apply Forall_cons. split; [right; by eexists|]. constructor.
  - reflexivity.
Defined.

Lemma progress_lines_progress_from n : ∀ t u,
  u ∈ progress_lines (progress_from t n) ↔
  (t < u ≤ t + Z.of_nat n ∧ u `mod` 500000 = 0).
Proof.
  unfold progress_lines.
  induction n as [|n IH]; intros t u; simpl.
  { split; [by intros ?%elem_of_nil|lia]. }
  rewrite omap_app, elem_of_app, IH. unfold progress.
  destruct ((t + 1) `mod` 500000 =? 0) eqn:Hmod; simpl.
  - apply Z.eqb_eq in Hmod. rewrite list_elem_of_singleton.
    split; [intros [->|?]; lia|].
    intros [? ?]. destruct (decide (u = t + 1)); [by left|right; lia].
  - apply Z.eqb_neq in Hmod. split.
    + intros [?%elem_of_nil|?]; [done|lia].
    + intros [? ?]. right. split; [|done].
      destruct (decide (u = t + 1)) as [->|]; [done|lia].
Qed.

(** X11: in a run that returns [True] a progress line is printed for
    exactly the record numbers that are multiples of 500000, up to the
    number of records of the source; a source of fewer than 500000
    records prints none. *)
Theorem progress_every_500000 w src out cs st st' items :
  open_database w (fs st) src = Ok (items, None) →
  generate_mmdb w src out cs st = (st', Ok true) →
  ∃ evs,
    log st' = log st ++ evs ∧
    ∀ t, t ∈ progress_lines evs ↔
         (0 < t ≤ Z.of_nat (length items) ∧ t `mod` 500000 = 0).
Proof.
  intros Hopen Hrun.
  pose proof Hrun as (items' & _ & wr & b & Himp & Hopen' & _ & Hsel & Hwr & _
                      & Hb & _ & _)%generate_mmdb_true.
  rewrite Hopen in Hopen'. injection Hopen' as <-.
  rewrite (generate_mmdb_forward w src out cs st items wr) in Hrun by done.
  cbn zeta in Hrun. rewrite Hb in Hrun. injection Hrun as <-.
  exists (prologue (list_to_set cs) src ++ progress_from 0 (length items) ++
          setup (list_to_set cs) items ++
          map insert_event (retained (list_to_set cs) items) ++
          [ToDbFile out] ++
          report (list_to_set cs) out (Z.of_nat (length b)) items).
  split.
  { cbn [log]. unfold prologue, setup.
    by repeat (progress (rewrite <-?app_assoc; simpl app)). }
  intros t.
  rewrite <-(progress_lines_progress_from (length items) 0 t).
  unfold progress_lines, report. rewrite !omap_app, omap_insert_event.
  simpl. by rewrite omap_none, omap_map_none, !app_nil_r by done.
Qed.

Lemma progress_every_500000_witness :
  let items := [(Examples.net_low, Examples.record "JP")] in
  ∃ evs,
    log (generate_mmdb (Examples.plain items) "a.mmdb" "out.mmdb" ["JP"]
           Examples.start).1 = log Examples.start ++ evs ∧
    ∀ t, t ∈ progress_lines evs ↔
         (0 < t ≤ Z.of_nat (length items) ∧ t `mod` 500000 = 0).
Proof.
  apply (progress_every_500000
           (Examples.plain [(Examples.net_low, Examples.record "JP")])
           "a.mmdb" "out.mmdb" ["JP"] Examples.start);
    by vm_compute.
Defined.

(** * Properties of ASN_generator.py *)

Module ASN_properties.
Import ASN_generator.

Lemma asn_bind_run {A B} (m : M A) (f : A → M B) (st : state) :
  (m ≫= f) st =
  match m st with
  | (st', Ok a) => f a st'
  | (st', Raise e) => (st', Raise e)
  end.
Proof. reflexivity. Qed.

Lemma asn_emit_run (ev : event) (st : state) :
  emit ev st = (State (fs st) (log st ++ [ev]), Ok tt).
Proof. reflexivity. Qed.

Lemma asn_state_eta (st : state) : State (fs st) (log st) = st.
Proof. by destruct st. Qed.

Ltac asn_run :=
  repeat (rewrite ?asn_bind_run, ?asn_emit_run;
          unfold print, raise, ask, mret, M_ret; cbn [fst snd fs log]).

Lemma string_app_nil_r (s : string) : s +:+ "" = s.
Proof.
  induction s as [|a s IH]; [done|].
  change (String a (s +:+ "") = String a s). by rewrite IH.
Qed.

Lemma string_app_assoc (s1 s2 s3 : string) :
  (s1 +:+ s2) +:+ s3 = s1 +:+ s2 +:+ s3.
Proof.
  induction s1 as [|a s1 IH]; [done|].
  change (String a ((s1 +:+ s2) +:+ s3) = String a (s1 +:+ s2 +:+ s3)).
  by rewrite IH.
Qed.

(** ** The list files *)

Lemma fopen_run w path mode st :
  open_error w path = None →
  fopen w path mode st =
  (State (<[path := if bool_decide (mode = "w") then ""
                    else default "" (fs st !! path)]> (fs st))
     (log st ++ [Open path mode]),
   Ok tt).
Proof. intros Hopen. unfold fopen. by rewrite Hopen. Qed.

Lemma fwrite_run path text st old :
  fs st !! path = Some old →
  fwrite path text st = (State (<[path := old +:+ text]> (fs st)) (log st), Ok tt).
Proof. intros Hold. unfold fwrite. by rewrite Hold. Qed.

Lemma init_file_run w display_name output_path st :
  open_error w output_path = None →
  init_file w display_name output_path st =
  (State (<[output_path := header display_name (strftime w (log st))]> (fs st))
     (log st ++ [Open output_path "w"]),
   Ok tt).
Proof.
  intros Hopen. unfold init_file. asn_run.
  rewrite fopen_run by done. rewrite bool_decide_eq_true_2 by done.
  asn_run.
  rewrite (fwrite_run _ _ _ "") by (cbn [fs]; by rewrite lookup_insert_eq).
  asn_run.
  erewrite fwrite_run by (cbn [fs]; by rewrite lookup_insert_eq).
  asn_run.
  erewrite fwrite_run by (cbn [fs]; by rewrite lookup_insert_eq).
  cbn [fs log]. rewrite !insert_insert_eq. unfold header.
  by rewrite !string_app_assoc.
Qed.

Lemma write_loop_run output_path entries : ∀ count st old,
  fs st !! output_path = Some old →
  write_loop output_path entries count st =
  (State (<[output_path := old +:+ entry_lines entries]> (fs st)) (log st),
   Ok (count + length entries)%nat).
Proof.
  induction entries as [|[number name] entries IH]; intros count st old Hold.
  - simpl. rewrite string_app_nil_r, insert_id, asn_state_eta by done.
    unfold mret, M_ret. do 2 f_equal. lia.
  - cbn [write_loop]. rewrite asn_bind_run, (fwrite_run _ _ _ old) by done.
    rewrite (IH _ _ (old +:+ entry_line (number, name)))
      by (cbn [fs]; by rewrite lookup_insert_eq).
    cbn [fs log]. rewrite insert_insert_eq. simpl entry_lines.
    f_equal; [by rewrite string_app_assoc|]. f_equal. simpl. lia.
Qed.

Lemma write_asn_entries_run w output_path entries st :
  open_error w output_path = None →
  write_asn_entries w output_path entries st =
  (State (<[output_path :=
              default "" (fs st !! output_path) +:+ entry_lines entries]>
            (fs st))
     (log st ++ [Open output_path "a"]),
   Ok (length entries)).
Proof.
  intros Hopen. unfold write_asn_entries.
  rewrite asn_bind_run, fopen_run by done.
  rewrite bool_decide_eq_false_2 by done.
  rewrite (write_loop_run _ _ _ _ (default "" (fs st !! output_path)))
    by (cbn [fs]; by rewrite lookup_insert_eq).
  cbn [fs log]. by rewrite insert_insert_eq.
Qed.

(** X12: [write_asn_entries] keeps what the file holds and adds one line
    ["IP-ASN,number // name"] for each entry, in the order given; the
    number it returns is the number of entries.  A file that does not
    exist is created. *)
Theorem write_asn_entries_appends w output_path entries st old :
  open_error w output_path = None →
  old = default "" (fs st !! output_path) →
  ∃ st',
    write_asn_entries w output_path entries st = (st', Ok (length entries)) ∧
    fs st' = <[output_path := old +:+ entry_lines entries]> (fs st) ∧
    log st' = log st ++ [Open output_path "a"].
Proof.
  intros Hopen ->. eexists. split; [by apply write_asn_entries_run|done].
Qed.

Lemma write_asn_entries_witness :
  let entries := [("4134", "Chinanet"); ("9808", "China Mobile")] in
  let st := State {[ "ASN.China.list" := "// header" +:+ nl ]} [] in
  ∃ st',
    write_asn_entries (example_world []) "ASN.China.list" entries st
      = (st', Ok (length entries)) ∧
    fs st' = <[ "ASN.China.list" :=
                  ("// header" +:+ nl) +:+ entry_lines entries]> (fs st) ∧
    log st' = log st ++ [Open "ASN.China.list" "a"].
Proof.
  apply (write_asn_entries_appends (example_world []) "ASN.China.list"
           [("4134", "Chinanet"); ("9808", "China Mobile")]
           (State {[ "ASN.China.list" := "// header" +:+ nl ]} [])
           ("// header" +:+ nl)).
  - reflexivity.
  - by vm_compute.
Defined.


(** ** The page *)

Lemma rows_loop_cons w r rows results :
  rows_loop w (r :: rows) results =
  match number_nodes r, name_nodes r with
  | number :: _, name :: _ =>
      if bool_decide ((entry_of w number name).1 = "")
         || bool_decide ((entry_of w number name).2 = "")
      then rows_loop w rows results
      else rows_loop w rows (results ++ [entry_of w number name])
  | _, _ => rows_loop w rows results
  end.
Proof. reflexivity. Qed.

Lemma from_rows_cons w r rows entry :
  from_rows w rows entry → from_rows w (r :: rows) entry.
Proof.
  intros (? & ? & r0 & number & name & numbers & names & ? & ?).
  split_and!; [done..|]. exists r0, number, name, numbers, names.
  split; [by right|done].
Qed.

Lemma rows_loop_spec w rows : ∀ results,
  ∃ new,
    rows_loop w rows results = results ++ new ∧
    (length new ≤ length rows)%nat ∧
    Forall (from_rows w rows) new.
Proof.
  induction rows as [|r rows IH]; intros results.
  { exists []. rewrite app_nil_r. split_and!; [done|done|constructor]. }
  assert (∃ new, rows_loop w rows results = results ++ new ∧
                 (length new ≤ length (r :: rows))%nat ∧
                 Forall (from_rows w (r :: rows)) new) as Hskip.
  { destruct (IH results) as (new & -> & Hlen & Hnew).
    exists new. split_and!; [done|simpl; lia|].
    apply (Forall_impl _ _ _ Hnew), from_rows_cons. }
  rewrite rows_loop_cons.
  destruct (number_nodes r) as [|number numbers] eqn:Hnum; [done|].
  destruct (name_nodes r) as [|name names] eqn:Hname; [done|].
  destruct (bool_decide ((entry_of w number name).1 = "")
            || bool_decide ((entry_of w number name).2 = "")) eqn:Hempty;
    [done|].
  apply orb_false_iff in Hempty
    as [H1%bool_decide_eq_false H2%bool_decide_eq_false].
  destruct (IH (results ++ [entry_of w number name]))
    as (new & -> & Hlen & Hnew).
  exists (entry_of w number name :: new).
  split_and!; [by rewrite <-app_assoc|simpl; lia|].
  constructor.
  - split_and!; [done..|]. exists r, number, name, numbers, names.
    split; [by left|done].
  - apply (Forall_impl _ _ _ Hnew), from_rows_cons.
Qed.

Lemma fetch_country_asns_run w country_code st :
  fetch_country_asns w country_code st =
  let st1 := State (fs st) (log st ++ [Get (page_url country_code) USER_AGENT]) in
  (st1,
   match fetch_rows w (log st1) (page_url country_code) with
   | Ok rows => Ok (rows_loop w rows [])
   | Raise e => Raise e
   end).
Proof.
  unfold fetch_country_asns, page_url. cbn zeta. asn_run.
  by destruct (fetch_rows w _ _).
Qed.

(** X13: [fetch_country_asns] returns at most one entry for each row of
    the page, made of the first node of each of the two queries, and
    never an entry with an empty number or an empty name: rows without
    the nodes, without text, or whose text is blank are left out.  It
    writes no file. *)
Theorem fetched_entries_well_formed w country_code st st' entries :
  fetch_country_asns w country_code st = (st', Ok entries) →
  fs st' = fs st ∧
  ∃ rows,
    fetch_rows w (log st ++ [Get (page_url country_code) USER_AGENT])
      (page_url country_code) = Ok rows ∧
    (length entries ≤ length rows)%nat ∧
    Forall (from_rows w rows) entries.
Proof.
  rewrite fetch_country_asns_run. cbn zeta. cbn [log].
  destruct (fetch_rows w _ _) as [rows|e] eqn:Hrows; intros [= <- <-].
  split; [done|]. exists rows. split; [done|].
  destruct (rows_loop_spec w rows []) as (new & -> & ? & ?). done.
Qed.

Lemma fetched_entries_witness :
  let rows := [Row [Some "AS4134"] [Some " Chinanet "]; Row [] [Some "x"];
               Row [None] [Some "y"]; Row [Some "AS9808"] [Some "  "]] in
  let w := example_world rows in
  let run := fetch_country_asns w "CN" start in
  fs run.1 = fs start ∧
  ∃ rows',
    fetch_rows w (log start ++ [Get (page_url "CN") USER_AGENT])
      (page_url "CN") = Ok rows' ∧
    (length [("4134", "Chinanet")] ≤ length rows')%nat ∧
    Forall (from_rows w rows') [("4134", "Chinanet")].
Proof.
  apply (fetched_entries_well_formed
           (example_world
              [Row [Some "AS4134"] [Some " Chinanet "]; Row [] [Some "x"];
               Row [None] [Some "y"]; Row [Some "AS9808"] [Some "  "]])
           "CN" start _ [("4134", "Chinanet")]).
  by vm_compute.
Defined.


(** ** [generate_country_asn] *)

Lemma configured_file k md :
  COUNTRY_METADATA !! k = Some md →
  file md ≠ "" ∧ file md ∈ configured_files ∧ k ∈ DEFAULT_COUNTRY_ORDER.
Proof.
  unfold COUNTRY_METADATA. cbn [list_to_map foldr fst snd uncurry].
  rewrite !lookup_insert_Some, lookup_empty.
  intros [[<- <-]|[_ [[<- <-]|[_ [[<- <-]|[_ [[<- <-]|[_ [[<- <-]|[_ ?]]]]]]]]]];
    [..|done]; (split_and!; [done|by vm_compute; set_solver|set_solver]).
Qed.

Lemma init_file_fail w display_name output_path st e :
  open_error w output_path = Some e →
  init_file w display_name output_path st =
  (State (fs st) (log st ++ [Open output_path "w"]), Raise e).
Proof.
  intros Hopen. unfold init_file, fopen. asn_run. by rewrite Hopen.
Qed.

Lemma write_asn_entries_fail w output_path entries st e :
  open_error w output_path = Some e →
  write_asn_entries w output_path entries st =
  (State (fs st) (log st ++ [Open output_path "a"]), Raise e).
Proof.
  intros Hopen. unfold write_asn_entries, fopen. asn_run. by rewrite Hopen.
Qed.

Lemma generate_country_asn_no_file w country_code output_path display_name st :
  file_for w country_code output_path = None →
  generate_country_asn w country_code output_path display_name st =
  (st, Raise (ValueError ("No output file configured for country code '" +:+
                          upper w country_code +:+ "'."))).
Proof.
  intros Hfile. unfold generate_country_asn. cbn zeta.
  change (or_else (or_else output_path _) None)
    with (file_for w country_code output_path).
  by rewrite Hfile.
Qed.

(** [generate_country_asn] once the file is known and can be opened. *)
Lemma generate_country_asn_run w country_code output_path display_name st
    file_path :
  file_for w country_code output_path = Some file_path →
  open_error w file_path = None →
  generate_country_asn w country_code output_path display_name st =
  let code := upper w country_code in
  let title := display_for w country_code display_name in
  let st1 := State (fs st) (log st ++ [Get (page_url code) USER_AGENT]) in
  match fetch_rows w (log st1) (page_url code) with
  | Raise e => (st1, Raise e)
  | Ok rows =>
      match rows_loop w rows [] with
      | [] =>
          let warn := Print ("[WARN] No ASN entries found for " +:+ code +:+ ".") in
          (State (<[file_path := header title (strftime w (log st1 ++ [warn]))]>
                    (fs st))
             (log st1 ++ [warn; Open file_path "w"]),
           Ok 0%nat)
      | entry :: entries =>
          (State (<[file_path := header title (strftime w (log st1)) +:+
                                 entry_lines (entry :: entries)]> (fs st))
             (log st1 ++
              [Open file_path "w"; Open file_path "a";
               Print ("[INFO] " +:+ code +:+ ": wrote " +:+
                      pretty (length (entry :: entries)) +:+
                      " entries to " +:+ file_path)]),
           Ok (length (entry :: entries)))
      end
  end.
Proof.
  intros Hfile Hopen. unfold generate_country_asn. cbn zeta.
  change (or_else (or_else output_path _) None)
    with (file_for w country_code output_path).
  change (default "" (or_else display_name _))
    with (display_for w country_code display_name).
  rewrite Hfile, asn_bind_run, fetch_country_asns_run. cbn zeta. cbn [log].
  destruct (fetch_rows w _ _) as [rows|e]; [|done].
  destruct (rows_loop w rows []) as [|entry entries].
  - asn_run. rewrite init_file_run by done. asn_run.
    by rewrite <-!app_assoc.
  - asn_run. rewrite init_file_run by done. asn_run.
    rewrite write_asn_entries_run by done. asn_run.
    rewrite lookup_insert_eq, insert_insert_eq. cbn [default].
    by rewrite <-!app_assoc.
Qed.

(** X14: when the page is fetched and the file can be opened,
    [generate_country_asn] replaces the list file as a whole: whatever it
    held before, it now holds the three-line header with the title and the
    time, followed by one line for each entry found; the number of entries
    is returned.  A page without entries leaves a file with the header
    alone. *)
Theorem generate_country_asn_rewrites w country_code output_path display_name
    st file_path rows :
  file_for w country_code output_path = Some file_path →
  open_error w file_path = None →
  fetch_rows w (log st ++ [Get (page_url (upper w country_code)) USER_AGENT])
    (page_url (upper w country_code)) = Ok rows →
  ∃ st' local_time,
    generate_country_asn w country_code output_path display_name st =
      (st', Ok (length (rows_loop w rows []))) ∧
    fs st' =
      <[file_path := header (display_for w country_code display_name) local_time
                     +:+ entry_lines (rows_loop w rows [])]> (fs st).
Proof.
  intros Hfile Hopen Hrows.
  rewrite (generate_country_asn_run _ _ _ _ _ file_path) by done.
  cbn zeta. cbn [log]. rewrite Hrows.
  destruct (rows_loop w rows []) as [|entry entries]; eexists _, _;
    (split; [reflexivity|]); cbn [fs]; [|done].
  by rewrite string_app_nil_r.
Qed.

Lemma generate_country_asn_rewrites_witness :
  let rows := [Row [Some "AS4134"] [Some "Chinanet"]] in
  let st := State {[ "ASN.China.list" := "stale" ]} [] in
  ∃ st' local_time,
    generate_country_asn (example_world rows) "cn" None None st =
      (st', Ok (length (rows_loop (example_world rows) rows []))) ∧
    fs st' =
      <[ "ASN.China.list" :=
           header (display_for (example_world rows) "cn" None) local_time
           +:+ entry_lines (rows_loop (example_world rows) rows [])]> (fs st).
Proof.
  apply (generate_country_asn_rewrites
           (example_world [Row [Some "AS4134"] [Some "Chinanet"]])
           "cn" None None (State {[ "ASN.China.list" := "stale" ]} [])
           "ASN.China.list" [Row [Some "AS4134"] [Some "Chinanet"]]);
    by vm_compute.
Defined.

(** X15: when no file is configured for the country, or when fetching the
    page raises, [generate_country_asn] raises without having opened any
    file: the lists written before stay as they are. *)
Theorem failed_fetch_keeps_files w country_code output_path display_name st :
  file_for w country_code output_path = None ∨
  (∃ e, fetch_rows w (log st ++ [Get (page_url (upper w country_code)) USER_AGENT])
          (page_url (upper w country_code)) = Raise e) →
  ∃ st' e evs,
    generate_country_asn w country_code output_path display_name st =
      (st', Raise e) ∧
    fs st' = fs st ∧
    log st' = log st ++ evs ∧
    opened evs = [].
Proof.
  intros Hfail.
  destruct (file_for w country_code output_path) as [file_path|] eqn:Hfile.
  - destruct Hfail as [?|[e He]]; [done|].
    unfold generate_country_asn. cbn zeta.
    change (or_else (or_else output_path _) None)
      with (file_for w country_code output_path).
    rewrite Hfile, asn_bind_run, fetch_country_asns_run. cbn zeta. cbn [log].
    rewrite He. by eexists _, _, [_].
  - rewrite generate_country_asn_no_file by done.
    eexists _, _, []. by rewrite app_nil_r.
Qed.

Lemma failed_fetch_keeps_files_witness :
  let st := State {[ "ASN.Japan.list" := "last week's list" ]} [] in
  ∃ st' e evs,
    generate_country_asn (example_world []) "JP" None None st = (st', Raise e) ∧
    fs st' = fs st ∧
    log st' = log st ++ evs ∧
    opened evs = [].
Proof.
  apply (failed_fetch_keeps_files (example_world []) "JP" None None
           (State {[ "ASN.Japan.list" := "last week's list" ]} [])).
  right. eexists. by vm_compute.
Defined.


(** ** [generate_multiple] and [main] *)

Lemma codes_loop_cons w code codes st :
  codes_loop w (code :: codes) st =
  match generate_one w code st with
  | (st', Ok _) => codes_loop w codes st'
  | (st', Raise e) => (st', Raise e)
  end.
Proof. reflexivity. Qed.

Lemma generate_one_no_request_error w code st st' e :
  generate_one w code st = (st', Raise e) →
  isinstance_RequestException e = false.
Proof.
  unfold generate_one. case_bool_decide; [|done].
  destruct (generate_country_asn w _ None None st) as [st1 [n|exc]]; [done|].
  destruct (isinstance_RequestException exc) eqn:Hexc; [done|].
  by intros [= <- <-].
Qed.

Lemma codes_loop_no_request_error w codes : ∀ st st' e,
  codes_loop w codes st = (st', Raise e) →
  isinstance_RequestException e = false.
Proof.
  induction codes as [|code codes IH]; intros st st' e; [done|].
  rewrite codes_loop_cons.
  destruct (generate_one w code st) as [st1 [[]|e1]] eqn:Hone.
  - apply IH.
  - intros [= <- <-]. by eapply generate_one_no_request_error.
Qed.

(** X16: no [requests.RequestException] comes out of [generate_multiple],
    nor out of [main]: the ones raised while a country is fetched are
    caught and printed.  Any other exception, for instance the [OSError]
    of an [open] that fails, does come out and ends the run. *)
Theorem request_errors_are_caught w country_codes st st' e :
  generate_multiple w country_codes st = (st', Raise e) ∨
  main w country_codes st = (st', Raise e) →
  isinstance_RequestException e = false.
Proof.
  unfold main, generate_multiple.
  intros [Hrun|Hrun]; eapply codes_loop_no_request_error; exact Hrun.
Qed.

Lemma request_errors_are_caught_witness :
  let w := World upper_ascii strip_spaces (λ _, "2024-01-01 00:00:00")
             (λ _ _, Ok [Row [Some "AS1"] [Some "One"]])
             (λ _, Some (OSError "read-only file system")) in
  isinstance_RequestException (OSError "read-only file system") = false.
Proof.
  apply (request_errors_are_caught
           (World upper_ascii strip_spaces (λ _, "2024-01-01 00:00:00")
              (λ _ _, Ok [Row [Some "AS1"] [Some "One"]])
              (λ _, Some (OSError "read-only file system")))
           (Some ["CN"]) start
           (State ∅ [Get (page_url "CN") USER_AGENT; Open "ASN.China.list" "w"])
           (OSError "read-only file system")).
  left. by vm_compute.
Defined.

(** X17: a country whose page cannot be fetched does not stop the others:
    the [RequestException] is printed, no file is touched, and
    [generate_multiple] goes on with the next code. *)
Theorem failed_country_is_skipped w code next codes st md msg :
  COUNTRY_METADATA !! upper w code = Some md →
  upper w (upper w code) = upper w code →
  open_error w (file md) = None →
  fetch_rows w (log st ++ [Get (page_url (upper w code)) USER_AGENT])
    (page_url (upper w code)) = Raise (RequestException msg) →
  generate_multiple w (Some (code :: next :: codes)) st =
  generate_multiple w (Some (next :: codes))
    (State (fs st)
       (log st ++
        [Get (page_url (upper w code)) USER_AGENT;
         Print ("[ERROR] Failed to fetch ASN data for " +:+ upper w code +:+
                ": " +:+ msg)])).
Proof.
  intros Hmd Hup Hopen Hfetch. unfold generate_multiple.
  rewrite codes_loop_cons. unfold generate_one.
  rewrite bool_decide_eq_true_2 by (rewrite Hmd; eauto).
  destruct (configured_file _ _ Hmd) as (Hfile & _ & _).
  rewrite (generate_country_asn_run _ _ _ _ _ (file md)); [|
    unfold file_for; rewrite Hup, Hmd; simpl;
    by rewrite bool_decide_eq_false_2 by done|done].
  cbn zeta. cbn [log]. rewrite Hup, Hfetch. cbn [isinstance_RequestException].
  asn_run. by rewrite <-app_assoc.
Qed.

Lemma failed_country_is_skipped_witness :
  let w := example_world [Row [Some "AS4134"] [Some "Chinanet"]] in
  generate_multiple w (Some ["jp"; "cn"]) start =
  generate_multiple w (Some ["cn"])
    (State (fs start)
       (log start ++
        [Get (page_url "JP") USER_AGENT;
         Print ("[ERROR] Failed to fetch ASN data for " +:+ "JP" +:+
                ": " +:+ "connection refused")])).
Proof.
  apply (failed_country_is_skipped
           (example_world [Row [Some "AS4134"] [Some "Chinanet"]])
           "jp" "cn" [] start (Metadata "Japan" "ASN.Japan.list")
           "connection refused");
    by vm_compute.
Defined.


(** Membership in a list that is written out. *)
Ltac in_explicit_list :=
  let x := fresh in let Hx := fresh in
  intros x Hx; simpl in Hx;
  repeat (apply elem_of_cons in Hx as [->|Hx]); try done;
  by apply elem_of_nil in Hx.

Lemma generate_country_asn_effect w country_code output_path display_name
    st st' r :
  generate_country_asn w country_code output_path display_name st = (st', r) →
  ∃ evs,
    log st' = log st ++ evs ∧
    (∀ url, url ∈ requested evs → url = page_url (upper w country_code)) ∧
    (∀ p, p ∈ opened evs → file_for w country_code output_path = Some p) ∧
    (∀ p, file_for w country_code output_path ≠ Some p →
          fs st' !! p = fs st !! p).
Proof.
  destruct (file_for w country_code output_path) as [file_path|] eqn:Hfile.
  2: { rewrite generate_country_asn_no_file by done. intros [= <- <-].
       exists []. rewrite app_nil_r. split_and!; [done|in_explicit_list..|done]. }
  assert (∀ p b, Some file_path ≠ Some p →
                 <[file_path := b]> (fs st) !! p = fs st !! p) as Hne.
  { intros p b Hp. apply lookup_insert_ne. congruence. }
  destruct (open_error w file_path) as [e|] eqn:Hopen.
  - unfold generate_country_asn. cbn zeta.
    change (or_else (or_else output_path _) None)
      with (file_for w country_code output_path).
    rewrite Hfile, asn_bind_run, fetch_country_asns_run. cbn zeta. cbn [log].
    destruct (fetch_rows w _ _) as [rows|e'].
    + destruct (rows_loop w rows []) as [|entry entries]; asn_run;
        rewrite (init_file_fail _ _ _ _ e) by done; intros [= <- <-];
        cbn [fs log]; rewrite <-?app_assoc; eexists;
        (split_and!; [reflexivity|in_explicit_list..|done]).
    + intros [= <- <-]. eexists.
      split_and!; [reflexivity|in_explicit_list..|done].
  - rewrite (generate_country_asn_run _ _ _ _ _ file_path) by done.
    cbn zeta. cbn [log].
    destruct (fetch_rows w _ _) as [rows|e'].
    + destruct (rows_loop w rows []) as [|entry entries]; intros [= <- <-];
        cbn [fs log]; rewrite <-?app_assoc; eexists;
        (split_and!; [reflexivity|in_explicit_list..|by auto]).
    + intros [= <- <-]. eexists.
      split_and!; [reflexivity|in_explicit_list..|done].
Qed.

Section footprint.
Context (w : world).
Hypothesis Hupper : ∀ k md, COUNTRY_METADATA !! k = Some md → upper w k = k.

Lemma generate_one_effect code st st' r :
  generate_one w code st = (st', r) →
  ∃ evs,
    log st' = log st ++ evs ∧
    (∀ url, url ∈ requested evs →
            ∃ k, k ∈ DEFAULT_COUNTRY_ORDER ∧ url = page_url k) ∧
    (∀ p, p ∈ opened evs → p ∈ configured_files) ∧
    (∀ p, p ∉ configured_files → fs st' !! p = fs st !! p).
Proof.
  unfold generate_one. case_bool_decide as Hconf.
  2: { unfold print. rewrite asn_emit_run. intros [= <- <-]. eexists.
       split_and!; [reflexivity|in_explicit_list..|done]. }
  destruct Hconf as [md Hmd].
  pose proof (Hupper _ _ Hmd) as Hup.
  destruct (configured_file _ _ Hmd) as (Hfile & Hin & Hk).
  assert (file_for w (upper w code) None = Some (file md)) as Hfor.
  { unfold file_for. rewrite Hup, Hmd. simpl.
    by rewrite bool_decide_eq_false_2 by done. }
  destruct (generate_country_asn w (upper w code) None None st)
    as [st1 r1] eqn:Hrun.
  apply generate_country_asn_effect in Hrun
    as (evs & Hlog & Hreq & Hopen & Hfs).
  rewrite Hup in Hreq. rewrite Hfor in Hopen, Hfs.
  assert (∀ p, p ∉ configured_files → fs st1 !! p = fs st !! p) as Hfs'.
  { intros p Hp. apply Hfs. intros [= <-]. done. }
  assert (∀ p, p ∈ opened evs → p ∈ configured_files) as Hopen'.
  { intros p [= <-]%Hopen. done. }
  destruct r1 as [n|exc].
  { intros [= <- <-]. exists evs. split_and!; [done| |done..].
    intros url ->%Hreq. eauto. }
  destruct (isinstance_RequestException exc).
  - unfold print. rewrite asn_emit_run. intros [= <- <-].
    exists (evs ++ [Print ("[ERROR] Failed to fetch ASN data for " +:+
                           upper w code +:+ ": " +:+ str_exn exc)]).
    cbn [fs log]. unfold requested, opened in *. rewrite !omap_app. simpl.
    rewrite !app_nil_r. split_and!; [by rewrite Hlog, <-app_assoc| |done..].
    intros url ->%Hreq. eauto.
  - intros [= <- <-]. exists evs. split_and!; [done| |done..].
    intros url ->%Hreq. eauto.
Qed.

Lemma codes_loop_effect codes : ∀ st st' r,
  codes_loop w codes st = (st', r) →
  ∃ evs,
    log st' = log st ++ evs ∧
    (∀ url, url ∈ requested evs →
            ∃ k, k ∈ DEFAULT_COUNTRY_ORDER ∧ url = page_url k) ∧
    (∀ p, p ∈ opened evs → p ∈ configured_files) ∧
    (∀ p, p ∉ configured_files → fs st' !! p = fs st !! p).
Proof.
  induction codes as [|code codes IH]; intros st st' r.
  { intros [= <- <-]. exists []. rewrite app_nil_r.
    split_and!; [done|in_explicit_list..|done]. }
  rewrite codes_loop_cons.
  destruct (generate_one w code st) as [st1 r1] eqn:Hone.
  apply generate_one_effect in Hone as (evs1 & Hlog1 & Hreq1 & Hopen1 & Hfs1).
  destruct r1 as [[]|e].
  - intros (evs2 & Hlog2 & Hreq2 & Hopen2 & Hfs2)%IH.
    exists (evs1 ++ evs2). unfold requested, opened in *.
    rewrite !omap_app. setoid_rewrite elem_of_app.
    split_and!; [by rewrite Hlog2, Hlog1, <-app_assoc| | |].
    + intros url [?|?]; auto.
    + intros p [?|?]; auto.
    + intros p Hp. by rewrite Hfs2, Hfs1.
  - intros [= <- <-]. by exists evs1.
Qed.

(** X18: [generate_multiple] and [main] ask for no page but those of the
    five configured countries and open or change no file but the five
    configured list files, whatever codes they are given. *)
Theorem only_configured_countries country_codes st st' r :
  generate_multiple w country_codes st = (st', r) ∨
  main w country_codes st = (st', r) →
  ∃ evs,
    log st' = log st ++ evs ∧
    (∀ url, url ∈ requested evs →
            ∃ k, k ∈ DEFAULT_COUNTRY_ORDER ∧ url = page_url k) ∧
    (∀ p, p ∈ opened evs → p ∈ configured_files) ∧
    (∀ p, p ∉ configured_files → fs st' !! p = fs st !! p).
Proof.
  unfold main, generate_multiple.
  intros [Hrun|Hrun]; eapply codes_loop_effect; exact Hrun.
Qed.

End footprint.

Lemma upper_ascii_configured k md :
  COUNTRY_METADATA !! k = Some md → upper_ascii k = k.
Proof.
  intros (_ & _ & Hk)%configured_file.
  repeat (apply elem_of_cons in Hk as [->|Hk]; [done|]).
  by apply elem_of_nil in Hk.
Qed.

Lemma only_configured_countries_witness :
  let w := example_world [Row [Some "AS4134"] [Some "Chinanet"]] in
  let st := State {[ "notes.txt" := "keep" ]} [] in
  let run := main w (Some ["cn"; "fr"; "jp"]) st in
  ∃ evs,
    log run.1 = log st ++ evs ∧
    (∀ url, url ∈ requested evs →
            ∃ k, k ∈ DEFAULT_COUNTRY_ORDER ∧ url = page_url k) ∧
    (∀ p, p ∈ opened evs → p ∈ configured_files) ∧
    (∀ p, p ∉ configured_files → fs run.1 !! p = fs st !! p).
Proof.
  apply (only_configured_countries
           (example_world [Row [Some "AS4134"] [Some "Chinanet"]])
           upper_ascii_configured (Some ["cn"; "fr"; "jp"])
           (State {[ "notes.txt" := "keep" ]} []) _
           (main (example_world [Row [Some "AS4134"] [Some "Chinanet"]])
              (Some ["cn"; "fr"; "jp"])
              (State {[ "notes.txt" := "keep" ]} [])).2).
  right. apply surjective_pairing.
Defined.

End ASN_properties.
